(** * PID temperature controller: control law, measurement step and main loop

    A shallow embedding of [PID/PID.ino] and [PID/control.ino].

    The sketch targets an AVR board (it installs [ISR(TIMER1_COMPA_vect)]),
    where [double] and [float] are the same IEEE binary32 format, [int] is a
    16-bit signed and [unsigned int] a 16-bit unsigned integer.  Floating-point
    values are therefore [spec_float]s of the Standard Library, operated at
    precision 24 and maximal exponent 128, so comparisons with NaN, signed
    zeros, infinities and rounding are those of the hardware format. *)

From Stdlib Require Import ZArith Bool List Ascii Lia.
From Stdlib Require Import Floats.SpecFloat.
Import ListNotations.

Local Open Scope Z_scope.

(** ** Binary32 arithmetic as used by the sketch *)

Module F32.

Definition prec : Z := 24.
Definition emax : Z := 128.

Definition float : Type := spec_float.

Definition fmul : float -> float -> float := SFmul prec emax.
Definition fdiv : float -> float -> float := SFdiv prec emax.
Definition fsub : float -> float -> float := SFsub prec emax.

(** C's [x >= y] and [x < y]: both are false as soon as one side is NaN. *)
Definition fge (x y : float) : bool :=
  match SFcompare x y with
  | Some Gt | Some Eq => true
  | _ => false
  end.

Definition flt (x y : float) : bool :=
  match SFcompare x y with
  | Some Lt => true
  | _ => false
  end.

(** C's [x <= y]. *)
Definition fle (x y : float) : bool :=
  match SFcompare x y with
  | Some Lt | Some Eq => true
  | _ => false
  end.

(** Conversion of an integer operand ([2], [-1], a [millis()] stamp) to
    the floating type, rounding to nearest-even. *)
Definition of_int (n : Z) : float := binary_normalize prec emax n 0 false.

(** The decimal literal [m / 10^k], correctly rounded ([24.50] is
    [decimal 2450 2]); [m] and [10^k] are below [2^24], hence exact. *)
Definition decimal (m : Z) (k : nat) : float :=
  fdiv (of_int m) (of_int (10 ^ Z.of_nat k)).

Definition zero : float := S754_zero false.

Definition is_nan (x : float) : bool :=
  match x with S754_nan => true | _ => false end.

End F32.

Import F32.

(** ** Control state *)

(** [enum MODES{OPEN_LOOP,CLOSED_LOOP}] *)
Inductive MODES : Type := OPEN_LOOP | CLOSED_LOOP.

Definition MODES_eqb (a b : MODES) : bool :=
  match a, b with
  | OPEN_LOOP, OPEN_LOOP | CLOSED_LOOP, CLOSED_LOOP => true
  | _, _ => false
  end.

(** A response line written to the serial link. *)
Inductive Reply : Type :=
| RFloat (x : float)
| RInt (n : Z)
| RMode (m : MODES)
| RError.

(** What the sketch exchanges with its surroundings: a reading delivered
    by [rtd.temperature], a code handed to [set_dac], a period handed to
    the timer by [set_period], a response written to the serial link. *)
Inductive Event : Type :=
| EvSensor (reading : float)
| EvDac (code : Z)
| EvTimer (p : Z)
| EvReply (r : Reply).

(** The global variables of [PID.ino], followed by the history of adapter
    events, oldest first. *)
Record State : Type := mkState {
  temperature   : float;
  setpoint      : float;
  error         : float;
  band          : float;
  t_integral    : float;
  t_derivative  : float;
  u1            : float;
  u2            : float;
  u3            : float;
  period        : Z;
  dt            : float;
  time_control  : float;
  time_recent   : float;
  control_flag  : bool;
  dac_output    : Z;
  received_data : list ascii;
  temp_data     : list ascii;
  newData       : bool;
  mode          : MODES;
  io            : list Event
}.

Definition upd_temperature (v : float) (s : State) : State :=
  mkState v (setpoint s) (error s) (band s) (t_integral s) (t_derivative s)
    (u1 s) (u2 s) (u3 s) (period s) (dt s) (time_control s) (time_recent s)
    (control_flag s) (dac_output s) (received_data s) (temp_data s)
    (newData s) (mode s) (io s).

Definition upd_setpoint (v : float) (s : State) : State :=
  mkState (temperature s) v (error s) (band s) (t_integral s) (t_derivative s)
    (u1 s) (u2 s) (u3 s) (period s) (dt s) (time_control s) (time_recent s)
    (control_flag s) (dac_output s) (received_data s) (temp_data s)
    (newData s) (mode s) (io s).

Definition upd_error (v : float) (s : State) : State :=
  mkState (temperature s) (setpoint s) v (band s) (t_integral s)
    (t_derivative s) (u1 s) (u2 s) (u3 s) (period s) (dt s) (time_control s)
    (time_recent s) (control_flag s) (dac_output s) (received_data s)
    (temp_data s) (newData s) (mode s) (io s).

Definition upd_parameters (b ti td : float) (s : State) : State :=
  mkState (temperature s) (setpoint s) (error s) b ti td
    (u1 s) (u2 s) (u3 s) (period s) (dt s) (time_control s) (time_recent s)
    (control_flag s) (dac_output s) (received_data s) (temp_data s)
    (newData s) (mode s) (io s).

Definition upd_user (a b c : float) (s : State) : State :=
  mkState (temperature s) (setpoint s) (error s) (band s) (t_integral s)
    (t_derivative s) a b c (period s) (dt s) (time_control s) (time_recent s)
    (control_flag s) (dac_output s) (received_data s) (temp_data s)
    (newData s) (mode s) (io s).

Definition upd_period (v : Z) (s : State) : State :=
  mkState (temperature s) (setpoint s) (error s) (band s) (t_integral s)
    (t_derivative s) (u1 s) (u2 s) (u3 s) v (dt s) (time_control s)
    (time_recent s) (control_flag s) (dac_output s) (received_data s)
    (temp_data s) (newData s) (mode s) (io s).

Definition upd_dt (v : float) (s : State) : State :=
  mkState (temperature s) (setpoint s) (error s) (band s) (t_integral s)
    (t_derivative s) (u1 s) (u2 s) (u3 s) (period s) v (time_control s)
    (time_recent s) (control_flag s) (dac_output s) (received_data s)
    (temp_data s) (newData s) (mode s) (io s).

Definition upd_time_control (v : float) (s : State) : State :=
  mkState (temperature s) (setpoint s) (error s) (band s) (t_integral s)
    (t_derivative s) (u1 s) (u2 s) (u3 s) (period s) (dt s) v
    (time_recent s) (control_flag s) (dac_output s) (received_data s)
    (temp_data s) (newData s) (mode s) (io s).

Definition upd_time_recent (v : float) (s : State) : State :=
  mkState (temperature s) (setpoint s) (error s) (band s) (t_integral s)
    (t_derivative s) (u1 s) (u2 s) (u3 s) (period s) (dt s) (time_control s)
    v (control_flag s) (dac_output s) (received_data s)
    (temp_data s) (newData s) (mode s) (io s).

Definition upd_control_flag (v : bool) (s : State) : State :=
  mkState (temperature s) (setpoint s) (error s) (band s) (t_integral s)
    (t_derivative s) (u1 s) (u2 s) (u3 s) (period s) (dt s) (time_control s)
    (time_recent s) v (dac_output s) (received_data s)
    (temp_data s) (newData s) (mode s) (io s).

Definition upd_dac_output (v : Z) (s : State) : State :=
  mkState (temperature s) (setpoint s) (error s) (band s) (t_integral s)
    (t_derivative s) (u1 s) (u2 s) (u3 s) (period s) (dt s) (time_control s)
    (time_recent s) (control_flag s) v (received_data s)
    (temp_data s) (newData s) (mode s) (io s).

Definition upd_received_data (v : list ascii) (s : State) : State :=
  mkState (temperature s) (setpoint s) (error s) (band s) (t_integral s)
    (t_derivative s) (u1 s) (u2 s) (u3 s) (period s) (dt s) (time_control s)
    (time_recent s) (control_flag s) (dac_output s) v
    (temp_data s) (newData s) (mode s) (io s).

Definition upd_temp_data (v : list ascii) (s : State) : State :=
  mkState (temperature s) (setpoint s) (error s) (band s) (t_integral s)
    (t_derivative s) (u1 s) (u2 s) (u3 s) (period s) (dt s) (time_control s)
    (time_recent s) (control_flag s) (dac_output s) (received_data s)
    v (newData s) (mode s) (io s).

Definition upd_newData (v : bool) (s : State) : State :=
  mkState (temperature s) (setpoint s) (error s) (band s) (t_integral s)
    (t_derivative s) (u1 s) (u2 s) (u3 s) (period s) (dt s) (time_control s)
    (time_recent s) (control_flag s) (dac_output s) (received_data s)
    (temp_data s) v (mode s) (io s).

Definition upd_mode (v : MODES) (s : State) : State :=
  mkState (temperature s) (setpoint s) (error s) (band s) (t_integral s)
    (t_derivative s) (u1 s) (u2 s) (u3 s) (period s) (dt s) (time_control s)
    (time_recent s) (control_flag s) (dac_output s) (received_data s)
    (temp_data s) (newData s) v (io s).

Definition emit (e : Event) (s : State) : State :=
  mkState (temperature s) (setpoint s) (error s) (band s) (t_integral s)
    (t_derivative s) (u1 s) (u2 s) (u3 s) (period s) (dt s) (time_control s)
    (time_recent s) (control_flag s) (dac_output s) (received_data s)
    (temp_data s) (newData s) (mode s) (io s ++ [e]).

(** The codes handed to the actuator so far, oldest first. *)
Fixpoint dac_commands (l : list Event) : list Z :=
  match l with
  | [] => []
  | EvDac c :: l' => c :: dac_commands l'
  | _ :: l' => dac_commands l'
  end.

(** The number of sensor acquisitions so far. *)
Fixpoint measurements (l : list Event) : nat :=
  match l with
  | [] => O
  | EvSensor _ :: l' => S (measurements l')
  | _ :: l' => measurements l'
  end.

(** ** The setters of [get_and_set.ino] *)

(** Modelled from the spec: [set_dac] of [get_and_set.ino], which is not
    among the sources.  The actuator adapter accepts a signed output code
    and programs the actuator: the code becomes the commanded value
    [dac_output] and the command is recorded in the adapter history. *)
Definition set_dac (code : Z) (s : State) : State :=
  emit (EvDac code) (upd_dac_output code s).

(** Modelled from the spec: [set_setpoint] of [get_and_set.ino].  The
    setpoint command is the only writer of [setpoint] and a query returns
    the value set. *)
Definition set_setpoint (x : float) (s : State) : State :=
  upd_setpoint x s.

(** Modelled from the spec: [set_parameters] of [get_and_set.ino]: band,
    integral time and derivative time, applied together. *)
Definition set_parameters (b ti td : float) (s : State) : State :=
  upd_parameters b ti td s.

(** Modelled from the spec: [set_period] of [get_and_set.ino]: stores the
    period, an [unsigned int] of 16 bits, and rearms the tick scheduler. *)
Definition set_period (p : Z) (s : State) : State :=
  emit (EvTimer (p mod 65536)) (upd_period (p mod 65536) s).

(** ** The control law *)

(** [void control()] of [PID.ino]:
<<
  if (error >= band/2)        { set_dac(-4095); }
  else if (error < -1*band/2) { set_dac(0); }
>>
    [-1*band/2] parses as [(-1*band)/2]. *)
Definition control (s : State) : State :=
  if fge (error s) (fdiv (band s) (of_int 2)) then
    set_dac (-4095) s
  else if flt (error s) (fdiv (fmul (of_int (-1)) (band s)) (of_int 2)) then
    set_dac 0 s
  else
    s.

(** [void control()] of [control.ino], which shadows the global [error]
    by a local recomputed from [temperature] and [setpoint]. *)
Definition control_local (s : State) : State :=
  let error := fsub (temperature s) (setpoint s) in
  if fge error (fdiv (band s) (of_int 2)) then
    set_dac (-4095) s
  else if flt error (fdiv (fmul (of_int (-1)) (band s)) (of_int 2)) then
    set_dac 0 s
  else
    s.

(** The two thresholds the law compares [error] with. *)
Definition upper_threshold (bnd : float) : float := fdiv bnd (of_int 2).
Definition lower_threshold (bnd : float) : float :=
  fdiv (fmul (of_int (-1)) bnd) (of_int 2).

(** The branch taken by the control law, as a function of the two values
    it reads. *)
Inductive Branch : Type := FullNegative | ZeroCode | NoCommand.

Definition control_branch (err bnd : float) : Branch :=
  if fge err (fdiv bnd (of_int 2)) then FullNegative
  else if flt err (fdiv (fmul (of_int (-1)) bnd) (of_int 2)) then ZeroCode
  else NoCommand.

Definition run_branch (b : Branch) (s : State) : State :=
  match b with
  | FullNegative => set_dac (-4095) s
  | ZeroCode => set_dac 0 s
  | NoCommand => s
  end.


(** ** Measurement, initialisation and the timer interrupt *)

(** What one pass of the program obtains from outside: the value returned
    by [rtd.temperature(RNOMINAL, RREF)], the value returned by [millis()]
    (an [unsigned long] of 32 bits), and the line completed on the serial
    link during the pass, if any. *)
Record Env : Type := mkEnv {
  rtd_temperature : float;
  millis          : Z;
  serial          : option (list ascii)
}.

(** [void read_temperature()]:
<<
  temperature = rtd.temperature(RNOMINAL, RREF);
  error       = temperature - setpoint;
  time_recent = millis();
>> *)
Definition acquire (r : float) (s : State) : State :=
  emit (EvSensor r) (upd_temperature r s).

Definition recompute_error (s : State) : State :=
  upd_error (fsub (temperature s) (setpoint s)) s.

Definition stamp_recent (t : Z) (s : State) : State :=
  upd_time_recent (of_int (t mod 2 ^ 32)) s.

Definition read_temperature (w : Env) (s : State) : State :=
  stamp_recent (millis w) (recompute_error (acquire (rtd_temperature w) s)).

(** The globals as the C runtime leaves them before [setup()]: zero
    everywhere, except for the initialisers [control_flag = false],
    [dac_output = 0], [newData = false] and [mode = OPEN_LOOP]. *)
Definition power_on : State :=
  mkState zero zero zero zero zero zero zero zero zero 0 zero zero zero
    false 0 [] [] false OPEN_LOOP [].

(** [void initialize()]:
<<
  set_setpoint(24.50);
  set_parameters(4.8, 15.16, 23.42);
  set_period(350);
  set_dac(0);
  temperature  = rtd.temperature(RNOMINAL, RREF);
  time_control = millis();
  time_recent  = millis();
>>
    [r] is the preliminary reading, [t1] and [t2] the two clock values. *)
Definition initialize (r : float) (t1 t2 : Z) (s : State) : State :=
  let s := set_setpoint (decimal 2450 2) s in
  let s := set_parameters (decimal 48 1) (decimal 1516 2) (decimal 2342 2) s in
  let s := set_period 350 s in
  let s := set_dac 0 s in
  let s := acquire r s in
  let s := upd_time_control (of_int (t1 mod 2 ^ 32)) s in
  upd_time_recent (of_int (t2 mod 2 ^ 32)) s.

(** [void setup()]: with [ENABLE_OUTPUT] false, only the serial link and
    the converter are started, then [initialize()] runs. *)
Definition setup (r : float) (t1 t2 : Z) : State :=
  initialize r t1 t2 power_on.

(** [ISR(TIMER1_COMPA_vect) { control_flag = true; }] *)
Definition ISR_TIMER1_COMPA (s : State) : State :=
  upd_control_flag true s.

(** ** The command dispatcher *)

(** Modelled from the spec: the operations the dispatcher of
    [serial_data.ino] and [get_and_set.ino] (not among the sources) routes a
    line to: setpoint, parameters, period and mode set and get, direct
    actuator override, the three debug scalars, the live readings, and the
    line that names no operation or has malformed arguments. *)
Inductive Command : Type :=
| CmdSetSetpoint (x : float)
| CmdGetSetpoint
| CmdSetParameters (b ti td : float)
| CmdSetPeriod (p : Z)
| CmdGetPeriod
| CmdSetMode (m : MODES)
| CmdGetMode
| CmdSetDac (code : Z)
| CmdSetU1 (x : float)
| CmdSetU2 (x : float)
| CmdSetU3 (x : float)
| CmdGetU1
| CmdGetU2
| CmdGetU3
| CmdGetTemperature
| CmdGetError
| CmdGetElapsed
| CmdMalformed.

Definition reply (r : Reply) (s : State) : State := emit (EvReply r) s.

(** Modelled from the spec: the effect of each operation of the absent
    dispatcher.  A setter writes its field, a getter only responds, the
    override drives the actuator directly, a malformed line is answered by
    an error response and leaves the control state as it is. *)
Definition dispatch (c : Command) (s : State) : State :=
  match c with
  | CmdSetSetpoint x => set_setpoint x s
  | CmdGetSetpoint => reply (RFloat (setpoint s)) s
  | CmdSetParameters b ti td => set_parameters b ti td s
  | CmdSetPeriod p => set_period p s
  | CmdGetPeriod => reply (RInt (period s)) s
  | CmdSetMode m => upd_mode m s
  | CmdGetMode => reply (RMode (mode s)) s
  | CmdSetDac code => set_dac code s
  | CmdSetU1 x => upd_user x (u2 s) (u3 s) s
  | CmdSetU2 x => upd_user (u1 s) x (u3 s) s
  | CmdSetU3 x => upd_user (u1 s) (u2 s) x s
  | CmdGetU1 => reply (RFloat (u1 s)) s
  | CmdGetU2 => reply (RFloat (u2 s)) s
  | CmdGetU3 => reply (RFloat (u3 s)) s
  | CmdGetTemperature => reply (RFloat (temperature s)) s
  | CmdGetError => reply (RFloat (error s)) s
  | CmdGetElapsed => reply (RFloat (dt s)) s
  | CmdMalformed => reply RError s
  end.

(** [const byte data_size = 64] *)
Definition data_size : nat := 64.

(** ** The main loop *)

Section Driver.

(** The reading of a line as an operation: function name up to the first
    comma, then the arguments.  The names are a choice of the absent
    [serial_data.ino]; the parser is a parameter of the development. *)
Variable decode : list ascii -> Command.

(** Modelled from the spec: [receive_data] of [serial_data.ino].  Bytes are
    assembled into the bounded buffer; when the terminator is seen the line
    (cut to the capacity, one cell being kept for the final NUL) is ready
    and [newData] is raised. *)
Definition receive_data (w : Env) (s : State) : State :=
  match serial w with
  | Some line =>
      upd_newData true (upd_received_data (firstn (data_size - 1) line) s)
  | None => s
  end.

(** Modelled from the spec: [parseData] of [serial_data.ino], which
    tokenises the scratch copy and routes it. *)
Definition parseData (s : State) : State :=
  dispatch (decode (temp_data s)) s.

(** First half of [loop()]:
<<
  if (newData == true) {
    strcpy(temp_data, received_data);
    parseData();
    newData = false;
  }
>> *)
Definition command_dispatch (s : State) : State :=
  if newData s then
    upd_newData false (parseData (upd_temp_data (received_data s) s))
  else s.

(** Second half of [loop()]:
<<
  if (control_flag) {
    read_temperature();
    dt           = time_recent - time_control;
    time_control = time_recent;
    if (mode == CLOSED_LOOP) { control(); }
    control_flag = false;
  }
>> *)
Definition update_dt (s : State) : State :=
  upd_dt (fsub (time_recent s) (time_control s)) s.

Definition advance_time_control (s : State) : State :=
  upd_time_control (time_recent s) s.

Definition control_if_closed (s : State) : State :=
  if MODES_eqb (mode s) CLOSED_LOOP then control s else s.

Definition control_service (w : Env) (s : State) : State :=
  if control_flag s then
    let s := read_temperature w s in
    let s := update_dt s in
    let s := advance_time_control s in
    let s := control_if_closed s in
    upd_control_flag false s
  else s.

(** [void loop()] *)
Definition loop (w : Env) (s : State) : State :=
  let s := receive_data w s in
  let s := command_dispatch s in
  control_service w s.

(** *** Statement-level execution with interrupts

    The program points of [loop()], one per statement, so that the timer
    interrupt can be taken between any two of them. *)
Inductive PC : Type :=
| P_receive | P_new_check | P_copy | P_parse | P_new_reset
| P_flag_check | P_measure | P_error | P_stamp | P_dt | P_time_control
| P_mode_check | P_control | P_flag_reset.

Definition Machine : Type := (PC * State)%type.

(** One statement of the main context. *)
Definition main_step (w : Env) (m : Machine) : Machine :=
  let s := snd m in
  match fst m with
  | P_receive => (P_new_check, receive_data w s)
  | P_new_check => if newData s then (P_copy, s) else (P_flag_check, s)
  | P_copy => (P_parse, upd_temp_data (received_data s) s)
  | P_parse => (P_new_reset, parseData s)
  | P_new_reset => (P_flag_check, upd_newData false s)
  | P_flag_check => if control_flag s then (P_measure, s) else (P_receive, s)
  | P_measure => (P_error, acquire (rtd_temperature w) s)
  | P_error => (P_stamp, recompute_error s)
  | P_stamp => (P_dt, stamp_recent (millis w) s)
  | P_dt => (P_time_control, update_dt s)
  | P_time_control => (P_mode_check, advance_time_control s)
  | P_mode_check =>
      if MODES_eqb (mode s) CLOSED_LOOP then (P_control, s)
      else (P_flag_reset, s)
  | P_control => (P_flag_reset, control s)
  | P_flag_reset => (P_receive, upd_control_flag false s)
  end.

(** A step of the whole system: a statement of the main context, or the
    interrupt handler run to completion at the current program point. *)
Inductive step : Machine -> Machine -> Prop :=
| step_main (w : Env) (m : Machine) : step m (main_step w m)
| step_irq (pc : PC) (s : State) : step (pc, s) (pc, ISR_TIMER1_COMPA s).

(** The states the system can be in after [setup()]. *)
Inductive reachable : Machine -> Prop :=
| reach_setup (r : float) (t1 t2 : Z) : reachable (P_receive, setup r t1 t2)
| reach_step (m m' : Machine) : reachable m -> step m m' -> reachable m'.

(** [n] statements of the main context, without interrupt. *)
Fixpoint run (n : nat) (w : Env) (m : Machine) : Machine :=
  match n with
  | O => m
  | S n' => run n' w (main_step w m)
  end.

(** The phase a program point belongs to: 1 serial intake, 2 command
    dispatch, 3 control service. *)
Definition phase (pc : PC) : nat :=
  match pc with
  | P_receive => 1
  | P_new_check | P_copy | P_parse | P_new_reset => 2
  | _ => 3
  end.

(** The program points at which the measurement has been written and the
    control law has not yet run. *)
Definition after_error_update (pc : PC) : bool :=
  match pc with
  | P_stamp | P_dt | P_time_control | P_mode_check | P_control => true
  | _ => false
  end.

End Driver.

(** The codes a branch hands to the actuator. *)
Definition branch_codes (b : Branch) : list Z :=
  match b with
  | FullNegative => [-4095]
  | ZeroCode => [0]
  | NoCommand => []
  end.

(** ** Sample states *)

(** After [setup()] with a preliminary reading of 25 degrees. *)
Definition s_ready : State := setup (of_int 25) 1000 1001.

(** After a measurement of 30, 20 and 25 degrees against the default
    setpoint of 24.5: errors 5.5, -4.5 and 0.5, for a band of 4.8. *)
Definition s_hot : State :=
  read_temperature (mkEnv (of_int 30) 1350 None) s_ready.
Definition s_cold : State :=
  read_temperature (mkEnv (of_int 20) 1350 None) s_ready.
Definition s_inside : State :=
  read_temperature (mkEnv (of_int 25) 1350 None) s_ready.

(** [s_ready] switched to closed loop, with a tick pending. *)
Definition s_pending : State :=
  ISR_TIMER1_COMPA (upd_mode CLOSED_LOOP s_ready).

(** A pass that measures 30 degrees while no line is complete, and one
    during which the line [s] is completed. *)
Definition w_hot : Env := mkEnv (of_int 30) 1350 None.
Definition w_line : Env := mkEnv (of_int 30) 1350 (Some ["s"%char]).

(** A parser for three one-letter lines: [s] sets the setpoint to 30, [b]
    the band to 2, [m] the mode to CLOSED_LOOP. *)
Definition sample_decode (l : list ascii) : Command :=
  match l with
  | ["s"%char] => CmdSetSetpoint (of_int 30)
  | ["b"%char] => CmdSetParameters (of_int 2) zero zero
  | ["m"%char] => CmdSetMode CLOSED_LOOP
  | _ => CmdMalformed
  end.

(** A zero error in front of a band of -4. *)
Definition s_negative_band : State :=
  upd_parameters (of_int (-4)) zero zero power_on.

(** ** Counting ticks *)

Section Ticks.

Variable decode : list ascii -> Command.

(** The states the system can be in after [setup()], together with the
    number of times the timer interrupt has run. *)
Inductive reachable_ticks : nat -> Machine -> Prop :=
| ticks_setup (r : float) (t1 t2 : Z) :
    reachable_ticks 0 (P_receive, setup r t1 t2)
| ticks_main (k : nat) (w : Env) (m : Machine) :
    reachable_ticks k m -> reachable_ticks k (main_step decode w m)
| ticks_irq (k : nat) (pc : PC) (s : State) :
    reachable_ticks k (pc, s) ->
    reachable_ticks (S k) (pc, ISR_TIMER1_COMPA s).

End Ticks.

(** The program points of the control service, once the flag has been
    tested. *)
Definition in_service (pc : PC) : bool :=
  match pc with
  | P_measure | P_error | P_stamp | P_dt | P_time_control
  | P_mode_check | P_control | P_flag_reset => true
  | _ => false
  end.

(** The measurement a pass still owes: one when the acquisition of the
    current service is the next statement, one when the flag is set and has
    not been tested yet, none otherwise. *)
Definition pending (pc : PC) (s : State) : nat :=
  match pc with
  | P_measure => 1
  | P_receive | P_new_check | P_copy | P_parse | P_new_reset
  | P_flag_check => if control_flag s then 1 else 0
  | _ => 0
  end.

(** A pass during which the line [m] is completed. *)
Definition w_mode : Env := mkEnv (of_int 30) 1350 (Some ["m"%char]).

(** The system after [setup()], one tick, and the twelve statements that
    lead from the serial intake of [w_mode] to the call of the law. *)
Definition m_at_control : Machine :=
  run sample_decode 12 w_mode (P_receive, ISR_TIMER1_COMPA s_ready).

(** The integer a floating-point number stands for, when it is one. *)
Definition int_value (x : float) : option Z :=
  match x with
  | S754_zero _ => Some 0
  | S754_finite sx m e =>
      if 0 <=? e then
        Some (if sx then - (Z.pos m * 2 ^ e) else Z.pos m * 2 ^ e)
      else if Z.pos m mod 2 ^ (- e) =? 0 then
        Some (if sx then - (Z.pos m / 2 ^ (- e)) else Z.pos m / 2 ^ (- e))
      else None
  | _ => None
  end.

(** ** Shapes of floating-point values *)

(** [x] is not NaN and is a zero or carries the sign [sx]. *)
Definition sign_is (sx : bool) (x : float) : Prop :=
  match x with
  | S754_zero _ => True
  | S754_infinity s | S754_finite s _ _ => s = sx
  | S754_nan => False
  end.

Definition two : float := Eval cbv in of_int 2.
Definition minus_one : float := Eval cbv in of_int (-1).

(** ** Facts on binary32 comparison and rounding *)

Section FloatFacts.

Lemma SFcompare_antisym (x y : float) :
  SFcompare y x = option_map CompOpp (SFcompare x y).
Proof.
  destruct x as [sx | sx | | sx mx ex], y as [sy | sy | | sy my ey];
    simpl; try reflexivity;
    try (destruct sx; reflexivity); try (destruct sy; reflexivity);
    try (destruct sx, sy; reflexivity).
  destruct sx, sy; simpl; try reflexivity;
    rewrite (Z.compare_antisym ex ey);
    destruct (ex ?= ey) eqn:E; simpl; try reflexivity;
    change (Pos.compare_cont Eq mx my) with (Pos.compare mx my);
    change (Pos.compare_cont Eq my mx) with (Pos.compare my mx);
    rewrite (Pos.compare_antisym mx my);
    destruct (Pos.compare mx my); reflexivity.
Qed.

Lemma flt_not_fge (x y : float) : flt x y = true -> fge x y = false.
Proof.
  unfold flt, fge. destruct (SFcompare x y) as [[ | | ] | ]; congruence.
Qed.

Lemma fge_not_flt (x y : float) : fge x y = true -> flt x y = false.
Proof.
  unfold flt, fge. destruct (SFcompare x y) as [[ | | ] | ]; congruence.
Qed.

Lemma fle_not_flt (x y : float) : fle x y = true -> flt y x = false.
Proof.
  unfold fle, flt. rewrite (SFcompare_antisym x y).
  destruct (SFcompare x y) as [[ | | ] | ]; simpl; congruence.
Qed.

Lemma fge_fle (x y : float) : fge x y = fle y x.
Proof.
  unfold fge, fle. rewrite (SFcompare_antisym x y).
  destruct (SFcompare x y) as [[ | | ] | ]; reflexivity.
Qed.

(** Rounding never turns a non-negative mantissa into NaN, and the
    result carries the sign it was asked for. *)

Lemma shr_1_nonneg (mrs : shr_record) :
  0 <= shr_m mrs -> 0 <= shr_m (shr_1 mrs).
Proof.
  destruct mrs as [m r s]; destruct m as [ | p | p]; simpl; try lia;
    destruct p; simpl; lia.
Qed.

Lemma iter_shr_1_nonneg (p : positive) :
  forall mrs, 0 <= shr_m mrs -> 0 <= shr_m (iter_pos shr_1 p mrs).
Proof.
  induction p as [p IH | p IH | ]; simpl; intros mrs H.
  - apply IH, IH, shr_1_nonneg, H.
  - apply IH, IH, H.
  - apply shr_1_nonneg, H.
Qed.

Lemma shr_record_of_loc_m (m : Z) (l : location) :
  shr_m (shr_record_of_loc m l) = m.
Proof. destruct l as [ | [ | | ]]; reflexivity. Qed.

Lemma shr_fexp_nonneg (m e : Z) (l : location) :
  0 <= m -> 0 <= shr_m (fst (shr_fexp prec emax m e l)).
Proof.
  intros H. unfold shr_fexp, shr.
  destruct (fexp prec emax (Zdigits2 m + e) - e) as [ | p | p]; simpl;
    try (rewrite shr_record_of_loc_m; exact H).
  apply iter_shr_1_nonneg. rewrite shr_record_of_loc_m. exact H.
Qed.

Lemma round_nearest_even_nonneg (m : Z) (l : location) :
  0 <= m -> 0 <= round_nearest_even m l.
Proof.
  intros H. destruct l as [ | [ | | ]]; simpl; try lia.
  destruct (Z.even m); lia.
Qed.



Lemma binary_round_aux_sign (sx : bool) (m e : Z) (l : location) :
  0 <= m -> sign_is sx (binary_round_aux prec emax sx m e l).
Proof.
  intros H. unfold binary_round_aux.
  pose proof (shr_fexp_nonneg m e l H) as H1.
  destruct (shr_fexp prec emax m e l) as [mrs1 e1]; simpl in H1.
  pose proof (shr_fexp_nonneg _ e1 loc_Exact
    (round_nearest_even_nonneg _ (loc_of_shr_record mrs1) H1)) as H2.
  destruct (shr_fexp prec emax _ e1 loc_Exact) as [mrs2 e2]; simpl in H2.
  destruct (shr_m mrs2) as [ | q | q]; simpl; try exact I; try lia.
  destruct (e2 <=? _); simpl; reflexivity.
Qed.

Lemma fmul_sign (sx sy : bool) (mx my : positive) (ex ey : Z) :
  sign_is (xorb sx sy) (fmul (S754_finite sx mx ex) (S754_finite sy my ey)).
Proof. apply binary_round_aux_sign. lia. Qed.

Lemma fdiv_sign (sx sy : bool) (mx my : positive) (ex ey : Z) :
  sign_is (xorb sx sy) (fdiv (S754_finite sx mx ex) (S754_finite sy my ey)).
Proof.
  unfold fdiv, SFdiv, SFdiv_core_binary.
  set (s := ex - ey - _).
  set (m' := match s with Z0 => Z.pos mx | Z.pos _ => Z.shiftl (Z.pos mx) s
             | Z.neg _ => 0 end).
  assert (Hm : 0 <= m').
  { subst m'. destruct s; try lia. apply Z.shiftl_nonneg. lia. }
  pose proof (Z.div_pos m' (Z.pos my) Hm eq_refl) as Hq.
  unfold Z.div in Hq.
  destruct (Z.div_eucl m' (Z.pos my)) as [q r].
  apply binary_round_aux_sign. exact Hq.
Qed.

(** The two thresholds of the control law sit on either side of zero,
    on the side given by the sign of the band. *)


Lemma upper_threshold_sign (sb : bool) (bnd : float) :
  sign_is sb bnd -> sign_is sb (upper_threshold bnd).
Proof.
  unfold upper_threshold. change (of_int 2) with two. unfold two.
  destruct bnd as [s | s | | s m e]; simpl; intros H; try tauto.
  - rewrite xorb_false_r. exact H.
  - subst sb. rewrite <- (xorb_false_r s) at 1.
    apply (fdiv_sign s false).
Qed.

Lemma lower_threshold_sign (sb : bool) (bnd : float) :
  sign_is sb bnd -> sign_is (negb sb) (lower_threshold bnd).
Proof.
  unfold lower_threshold.
  change (of_int 2) with two. change (of_int (-1)) with minus_one.
  unfold two, minus_one.
  destruct bnd as [s | s | | s m e]; intros H.
  - exact I.
  - simpl in *. subst sb. rewrite xorb_false_r. reflexivity.
  - contradiction.
  - simpl in H. subst sb.
    pose proof (fmul_sign true s 8388608 m (-23) e) as Hm.
    destruct (fmul (S754_finite true 8388608 (-23)) (S754_finite s m e))
      as [s' | s' | | s' m' e']; simpl in Hm.
    + exact I.
    + subst s'. simpl. rewrite xorb_false_r. reflexivity.
    + contradiction.
    + subst s'.
      pose proof (fdiv_sign (negb s) false m' 8388608 e' (-22)) as Hd.
      rewrite xorb_false_r in Hd. exact Hd.
Qed.

(** Comparisons across zero. *)

(** [-1*band/2] is exactly the negation of [band/2]: multiplying a
    binary32 number by -1 is exact and rounding is symmetric, so the lower
    threshold of the code is the [-band/2] of the design. *)

Lemma binary_round_aux_opp (sx : bool) (m e : Z) (l : location) :
  binary_round_aux prec emax (negb sx) m e l
  = SFopp (binary_round_aux prec emax sx m e l).
Proof.
  unfold binary_round_aux.
  destruct (shr_fexp prec emax m e l) as [mrs1 e1].
  destruct (shr_fexp prec emax _ e1 loc_Exact) as [mrs2 e2].
  destruct (shr_m mrs2); simpl; try reflexivity.
  destruct (e2 <=? _); reflexivity.
Qed.

Lemma fdiv_opp (x y : float) : fdiv (SFopp x) y = SFopp (fdiv x y).
Proof.
  unfold fdiv.
  destruct x as [sx | sx | | sx mx ex], y as [sy | sy | | sy my ey];
    simpl; rewrite <- ?negb_xorb_l; try reflexivity.
  destruct (SFdiv_core_binary prec emax (Z.pos mx) ex (Z.pos my) ey)
    as [[mz ez] lz].
  apply binary_round_aux_opp.
Qed.

Lemma digits2_pos_shift (m : positive) :
  Z.pos (digits2_pos (8388608 * m)) = Z.pos (digits2_pos m) + 23.
Proof. cbn [Pos.mul digits2_pos]. lia. Qed.

Lemma fmul_minus_one (b : float) :
  valid_binary prec emax b = true -> fmul minus_one b = SFopp b.
Proof.
  destruct b as [s | s | | s m e]; try reflexivity.
  unfold valid_binary, bounded, canonical_mantissa. intros H.
  apply andb_prop in H. destruct H as [Hc He].
  apply Z.eqb_eq in Hc.
  unfold fmul, minus_one, SFmul.
  change (xorb true s) with (negb s).
  unfold binary_round_aux, shr_fexp, Zdigits2.
  rewrite digits2_pos_shift.
  replace (Z.pos (digits2_pos m) + 23 + (-23 + e))
    with (Z.pos (digits2_pos m) + e) by lia.
  rewrite Hc.
  replace (e - (-23 + e)) with 23 by lia.
  change (shr (shr_record_of_loc (Z.pos (8388608 * m)) loc_Exact) (-23 + e) 23)
    with ({| shr_m := Z.pos m; shr_r := false; shr_s := false |},
          -23 + e + 23).
  cbn [shr_m loc_of_shr_record round_nearest_even shr_record_of_loc].
  replace (-23 + e + 23) with e by lia.
  rewrite Hc, Z.sub_diag. cbn [shr shr_m].
  rewrite He. reflexivity.
Qed.

Lemma lower_threshold_negates_upper (b : float) :
  valid_binary prec emax b = true ->
  lower_threshold b = SFopp (upper_threshold b).
Proof.
  intros H. unfold lower_threshold, upper_threshold.
  change (of_int (-1)) with minus_one.
  rewrite (fmul_minus_one b H). apply fdiv_opp.
Qed.

Ltac by_shape :=
  simpl in *; subst; try tauto; try discriminate; try reflexivity;
  repeat match goal with b : bool |- _ => destruct b end;
  simpl in *; try tauto; try discriminate; try reflexivity.

Lemma fge_zero_sign (x : float) : fge x zero = true -> sign_is false x.
Proof. unfold fge, zero. destruct x; by_shape. Qed.

Lemma fle_zero_sign (x : float) : fle x zero = true -> sign_is true x.
Proof. unfold fle, zero. destruct x; by_shape. Qed.

(** Below a threshold that is at most zero, hence not above one that is
    at least zero. *)
Lemma flt_below_excludes_fge (e lo up : float) :
  sign_is true lo -> sign_is false up ->
  flt e lo = true -> fge e up = false.
Proof.
  unfold flt, fge.
  destruct e as [s | s | | s m x], lo as [s1 | s1 | | s1 m1 x1],
    up as [s2 | s2 | | s2 m2 x2]; by_shape.
Qed.

(** When the upper threshold is at most zero and the lower one at least
    zero, every number is above the first or below the second. *)
Lemma thresholds_cover (e lo up : float) :
  sign_is true up -> sign_is false lo -> is_nan e = false ->
  fge e up = false -> flt e lo = true.
Proof.
  unfold flt, fge.
  destruct e as [s | s | | s m x], lo as [s1 | s1 | | s1 m1 x1],
    up as [s2 | s2 | | s2 m2 x2]; by_shape.
Qed.

End FloatFacts.

(** ** The control law *)

Section ControlLaw.

Lemma dac_commands_app (l1 l2 : list Event) :
  dac_commands (l1 ++ l2) = dac_commands l1 ++ dac_commands l2.
Proof.
  induction l1 as [ | e l1 IH]; simpl; [reflexivity | ].
  destruct e; simpl; rewrite IH; reflexivity.
Qed.

Lemma measurements_app (l1 l2 : list Event) :
  measurements (l1 ++ l2) = (measurements l1 + measurements l2)%nat.
Proof.
  induction l1 as [ | e l1 IH]; simpl; [reflexivity | ].
  destruct e; simpl; rewrite IH; reflexivity.
Qed.

Lemma set_dac_commands (code : Z) (s : State) :
  dac_commands (io (set_dac code s)) = dac_commands (io s) ++ [code].
Proof. simpl. rewrite dac_commands_app. reflexivity. Qed.

Lemma set_dac_changes_state (code : Z) (s : State) : set_dac code s <> s.
Proof.
  intros H. apply (f_equal (fun x => List.length (io x))) in H.
  simpl in H. rewrite length_app in H. simpl in H. lia.
Qed.

Lemma control_as_branch (s : State) :
  control s = run_branch (control_branch (error s) (band s)) s.
Proof.
  unfold control, control_branch.
  destruct (fge _ _); [reflexivity | ].
  destruct (flt _ _); reflexivity.
Qed.

Lemma run_branch_commands (b : Branch) (s : State) :
  dac_commands (io (run_branch b s)) = dac_commands (io s) ++ branch_codes b.
Proof.
  destruct b; simpl; rewrite ?dac_commands_app, ?app_nil_r; reflexivity.
Qed.

(** The three branches at a glance, for a band of 4.8 and for degenerate
    bands. *)
Example control_branch_samples :
  control_branch (decimal 55 1) (decimal 48 1) = FullNegative
  /\ control_branch (decimal 24 1) (decimal 48 1) = FullNegative
  /\ control_branch (decimal 23 1) (decimal 48 1) = NoCommand
  /\ control_branch (decimal (-24) 1) (decimal 48 1) = NoCommand
  /\ control_branch (decimal (-25) 1) (decimal 48 1) = ZeroCode
  /\ control_branch zero zero = FullNegative
  /\ control_branch (S754_zero true) zero = FullNegative
  /\ control_branch (S754_finite true 1 (-149)) zero = ZeroCode
  /\ control_branch zero (of_int (-4)) = FullNegative
  /\ control_branch (of_int (-3)) (of_int (-4)) = ZeroCode
  /\ control_branch S754_nan (decimal 48 1) = NoCommand
  /\ control_branch zero S754_nan = NoCommand.
Proof. vm_compute. repeat split. Qed.

(** C1: whenever [error >= band/2], whatever the two values are, the
    control law hands the full-scale negative code -4095 to the actuator:
    it becomes the commanded value and is the one command issued. *)
Theorem control_full_negative (s : State) :
  fge (error s) (upper_threshold (band s)) = true ->
  control s = set_dac (-4095) s
  /\ dac_output (control s) = -4095
  /\ dac_commands (io (control s)) = dac_commands (io s) ++ [-4095].
Proof.
  intros H. unfold upper_threshold in H.
  assert (E : control s = set_dac (-4095) s).
  { unfold control. rewrite H. reflexivity. }
  rewrite E. repeat split. apply set_dac_commands.
Qed.

Lemma control_full_negative_witness :
  control s_hot = set_dac (-4095) s_hot
  /\ dac_output (control s_hot) = -4095
  /\ dac_commands (io (control s_hot)) = dac_commands (io s_hot) ++ [-4095].
Proof. apply (control_full_negative s_hot). vm_compute. reflexivity. Defined.

(** C2, as stated, fails: with a zero error and a band of -4 the test
    [error < -band/2] holds (0 < 2), yet the first test [error >= band/2]
    holds as well (0 >= -2) and wins: the code handed over is -4095. *)
Lemma control_zero_code_counterexample :
  flt (error s_negative_band) (lower_threshold (band s_negative_band)) = true
  /\ dac_output (control s_negative_band) = -4095
  /\ dac_commands (io (control s_negative_band)) = [-4095]
  /\ dac_output (control s_negative_band) <> 0.
Proof. vm_compute. repeat split. discriminate. Qed.

(** C2, amended: whenever [error < -band/2] and the first test
    [error >= band/2] fails, the control law hands the zero code to the
    actuator; the first test fails by itself as soon as [band >= 0]. *)
Theorem control_zero_code (s : State) :
  flt (error s) (lower_threshold (band s)) = true ->
  fge (error s) (upper_threshold (band s)) = false
    \/ fge (band s) zero = true ->
  control s = set_dac 0 s
  /\ dac_output (control s) = 0
  /\ dac_commands (io (control s)) = dac_commands (io s) ++ [0].
Proof.
  intros Hlt Hfirst.
  assert (Hge : fge (error s) (upper_threshold (band s)) = false).
  { destruct Hfirst as [H | H]; [exact H | ].
    apply fge_zero_sign in H.
    apply (flt_below_excludes_fge _ (lower_threshold (band s))).
    - apply (lower_threshold_sign false), H.
    - apply (upper_threshold_sign false), H.
    - exact Hlt. }
  unfold upper_threshold in Hge. unfold lower_threshold in Hlt.
  assert (E : control s = set_dac 0 s).
  { unfold control. rewrite Hge, Hlt. reflexivity. }
  rewrite E. repeat split. apply set_dac_commands.
Qed.

Lemma control_zero_code_witness :
  control s_cold = set_dac 0 s_cold
  /\ dac_output (control s_cold) = 0
  /\ dac_commands (io (control s_cold)) = dac_commands (io s_cold) ++ [0].
Proof.
  apply (control_zero_code s_cold).
  - vm_compute. reflexivity.
  - right. vm_compute. reflexivity.
Defined.

Lemma control_fixed_point (s : State) (n : nat) :
  control s = s -> Nat.iter n control s = s.
Proof.
  intros H. induction n as [ | n IH]; simpl; [reflexivity | ].
  rewrite IH. exact H.
Qed.

(** C3: whenever [-band/2 <= error < band/2], the control law issues no
    actuator command and leaves the whole state, hence the commanded value,
    as it was; any number of invocations is a no-op. *)
Theorem control_dead_zone (s : State) :
  fle (lower_threshold (band s)) (error s) = true ->
  flt (error s) (upper_threshold (band s)) = true ->
  control s = s
  /\ (forall n : nat, Nat.iter n control s = s)
  /\ dac_output (control s) = dac_output s
  /\ dac_commands (io (control s)) = dac_commands (io s).
Proof.
  intros Hlo Hup.
  apply fle_not_flt in Hlo. apply flt_not_fge in Hup.
  unfold lower_threshold in Hlo. unfold upper_threshold in Hup.
  assert (E : control s = s).
  { unfold control. rewrite Hup, Hlo. reflexivity. }
  rewrite E. repeat split.
  intros n. apply control_fixed_point, E.
Qed.

Lemma control_dead_zone_witness :
  control s_inside = s_inside
  /\ (forall n : nat, Nat.iter n control s_inside = s_inside)
  /\ dac_output (control s_inside) = dac_output s_inside
  /\ dac_commands (io (control s_inside)) = dac_commands (io s_inside).
Proof. apply (control_dead_zone s_inside); vm_compute; reflexivity. Defined.

(** A NaN error or a NaN band also falls through both tests. *)
Lemma control_nan_no_command (s : State) :
  is_nan (error s) = true \/ is_nan (band s) = true -> control s = s.
Proof.
  intros H. unfold control, fge, flt.
  destruct H as [H | H].
  - destruct (error s); try discriminate. reflexivity.
  - destruct (band s); try discriminate. simpl.
    destruct (error s); reflexivity.
Qed.

(** C8: for every band, zero and negative ones included, and every error,
    the control law takes exactly one of its three branches, the one fixed
    by [error] and [band] alone; the three outcomes differ pairwise; and
    for [band <= 0] the dead zone is empty: every error that is a number
    gets a command. *)
Theorem control_total_deterministic (s : State) :
  control s = run_branch (control_branch (error s) (band s)) s
  /\ (   fge (error s) (upper_threshold (band s)) = true
         /\ control s = set_dac (-4095) s
      \/ fge (error s) (upper_threshold (band s)) = false
         /\ flt (error s) (lower_threshold (band s)) = true
         /\ control s = set_dac 0 s
      \/ fge (error s) (upper_threshold (band s)) = false
         /\ flt (error s) (lower_threshold (band s)) = false
         /\ control s = s)
  /\ (set_dac (-4095) s <> s /\ set_dac 0 s <> s
      /\ set_dac (-4095) s <> set_dac 0 s)
  /\ (fle (band s) zero = true -> is_nan (error s) = false ->
      control_branch (error s) (band s) <> NoCommand).
Proof.
  split; [apply control_as_branch | ].
  split.
  { unfold control, upper_threshold, lower_threshold.
    destruct (fge _ _); [left; split; reflexivity | ].
    destruct (flt _ _); [right; left | right; right]; repeat split. }
  split.
  { repeat split; try apply set_dac_changes_state.
    intros H. apply (f_equal dac_output) in H. simpl in H. discriminate. }
  intros Hb Hn.
  apply fle_zero_sign in Hb.
  pose proof (thresholds_cover (error s) (lower_threshold (band s))
    (upper_threshold (band s)) (upper_threshold_sign true _ Hb)
    (lower_threshold_sign true _ Hb) Hn) as Hc.
  unfold control_branch. fold (upper_threshold (band s)).
  fold (lower_threshold (band s)).
  destruct (fge _ _); [discriminate | ].
  rewrite (Hc eq_refl). discriminate.
Qed.

Lemma control_total_deterministic_witness :
  control_branch (error s_negative_band) (band s_negative_band) <> NoCommand.
Proof.
  apply (control_total_deterministic s_negative_band);
    vm_compute; reflexivity.
Defined.

(** C10: in every state whose global [error] is [temperature - setpoint],
    the control function of [control.ino], which recomputes the error
    locally, does exactly what the one of [PID.ino] does. *)
Theorem control_local_agrees (s : State) :
  error s = fsub (temperature s) (setpoint s) ->
  control_local s = control s
  /\ dac_commands (io (control_local s)) = dac_commands (io (control s)).
Proof.
  intros H. unfold control_local, control. rewrite <- H. split; reflexivity.
Qed.

Lemma control_local_agrees_witness :
  control_local s_hot = control s_hot
  /\ dac_commands (io (control_local s_hot)) = dac_commands (io (control s_hot)).
Proof. apply (control_local_agrees s_hot). vm_compute. reflexivity. Defined.

End ControlLaw.

(** ** Initialisation and measurement *)

Section Startup.

(** The literals of [initialize()] denote the binary32 numbers nearest to
    24.50, 4.8, 15.16 and 23.42: the distance of [m * 2^e] to [n / d] is at
    most half a unit in the last place. *)
Lemma initialize_literals :
  decimal 2450 2 = S754_finite false 12845056 (-19)
  /\ decimal 48 1 = S754_finite false 10066330 (-21)
  /\ decimal 1516 2 = S754_finite false 15896412 (-20)
  /\ decimal 2342 2 = S754_finite false 12278825 (-19)
  /\ 12845056 * 100 = 2450 * 2 ^ 19
  /\ 2 * Z.abs (10066330 * 10 - 48 * 2 ^ 21) <= 10
  /\ 2 * Z.abs (15896412 * 100 - 1516 * 2 ^ 20) <= 100
  /\ 2 * Z.abs (12278825 * 100 - 2342 * 2 ^ 19) <= 100.
Proof. vm_compute. repeat split; discriminate. Qed.

(** C9: once [setup()] has run [initialize()], the setpoint is 24.50, the
    band 4.8, the integral time 15.16, the derivative time 23.42 (each as
    the binary32 number of [initialize_literals]), the period 350
    milliseconds, the actuator has been handed the zero code, which is its
    commanded value, and the mode is OPEN_LOOP. *)
Theorem initialize_defaults (r : float) (t1 t2 : Z) :
  let s := setup r t1 t2 in
  setpoint s = S754_finite false 12845056 (-19)
  /\ band s = S754_finite false 10066330 (-21)
  /\ t_integral s = S754_finite false 15896412 (-20)
  /\ t_derivative s = S754_finite false 12278825 (-19)
  /\ period s = 350
  /\ dac_output s = 0
  /\ dac_commands (io s) = [0]
  /\ mode s = OPEN_LOOP.
Proof. simpl. repeat split. Qed.

(** [initialize()] leaves [mode], [control_flag] and [error] as it finds
    them. *)
Lemma initialize_frame (r : float) (t1 t2 : Z) (s : State) :
  mode (initialize r t1 t2 s) = mode s
  /\ control_flag (initialize r t1 t2 s) = control_flag s
  /\ error (initialize r t1 t2 s) = error s
  /\ temperature (initialize r t1 t2 s) = r.
Proof. repeat split. Qed.

(** The measurement step pairs the reading with its error. *)
Lemma read_temperature_pairs_error (w : Env) (s : State) :
  temperature (read_temperature w s) = rtd_temperature w
  /\ setpoint (read_temperature w s) = setpoint s
  /\ error (read_temperature w s)
     = fsub (temperature (read_temperature w s))
            (setpoint (read_temperature w s))
  /\ time_recent (read_temperature w s) = of_int (millis w mod 2 ^ 32)
  /\ measurements (io (read_temperature w s)) = S (measurements (io s))
  /\ dac_commands (io (read_temperature w s)) = dac_commands (io s).
Proof.
  repeat split; simpl.
  - rewrite measurements_app. simpl. lia.
  - rewrite dac_commands_app. simpl. apply app_nil_r.
Qed.

(** C5 at startup: the preliminary reading of [initialize()] writes
    [temperature] and leaves [error] alone.  With a reading of 30 degrees
    the state handed to the main loop has [temperature = 30],
    [setpoint = 24.5] and [error = 0] where [temperature - setpoint] is
    5.5, and a query of the error answered before the first tick reports
    that stale zero. *)
Theorem initialize_error_not_paired :
  let s := setup (of_int 30) 1000 1001 in
  temperature s = of_int 30
  /\ setpoint s = decimal 2450 2
  /\ fsub (temperature s) (setpoint s) = decimal 55 1
  /\ error s = zero
  /\ error s <> fsub (temperature s) (setpoint s)
  /\ io (dispatch CmdGetError s) = io s ++ [EvReply (RFloat zero)]
  /\ io (dispatch CmdGetTemperature s) = io s ++ [EvReply (RFloat (of_int 30))].
Proof. vm_compute. repeat split. discriminate. Qed.

End Startup.

(** ** The main loop and the timer interrupt *)

Section DriverFacts.

Variable decode : list ascii -> Command.

Lemma dispatch_frame (c : Command) (s : State) :
  control_flag (dispatch c s) = control_flag s
  /\ measurements (io (dispatch c s)) = measurements (io s)
  /\ time_control (dispatch c s) = time_control s
  /\ newData (dispatch c s) = newData s.
Proof.
  destruct c; simpl; rewrite ?measurements_app; simpl;
    rewrite ?Nat.add_0_r; repeat split.
Qed.

Lemma receive_data_frame (w : Env) (s : State) :
  control_flag (receive_data w s) = control_flag s
  /\ io (receive_data w s) = io s
  /\ time_control (receive_data w s) = time_control s.
Proof.
  unfold receive_data. destruct (serial w); repeat split.
Qed.

Lemma command_dispatch_frame (s : State) :
  control_flag (command_dispatch decode s) = control_flag s
  /\ measurements (io (command_dispatch decode s)) = measurements (io s)
  /\ time_control (command_dispatch decode s) = time_control s
  /\ newData (command_dispatch decode s) = false.
Proof.
  unfold command_dispatch, parseData.
  destruct (newData s) eqn:E; [ | repeat split; exact E].
  set (s0 := upd_temp_data (received_data s) s).
  destruct (dispatch_frame (decode (temp_data s0)) s0) as (H1 & H2 & H3 & _).
  simpl. repeat split; assumption.
Qed.

Lemma control_frame (s : State) :
  control_flag (control s) = control_flag s
  /\ measurements (io (control s)) = measurements (io s)
  /\ temperature (control s) = temperature s
  /\ setpoint (control s) = setpoint s
  /\ error (control s) = error s
  /\ dt (control s) = dt s
  /\ time_control (control s) = time_control s
  /\ time_recent (control s) = time_recent s
  /\ mode (control s) = mode s.
Proof.
  rewrite control_as_branch.
  destruct (control_branch (error s) (band s)); simpl;
    rewrite ?measurements_app; simpl; rewrite ?Nat.add_0_r; repeat split.
Qed.

Lemma control_if_closed_commands (s : State) :
  dac_commands (io (control_if_closed s))
  = dac_commands (io s)
    ++ (if MODES_eqb (mode s) CLOSED_LOOP
        then branch_codes (control_branch (error s) (band s)) else []).
Proof.
  unfold control_if_closed. destruct (MODES_eqb (mode s) CLOSED_LOOP).
  - rewrite control_as_branch. apply run_branch_commands.
  - symmetry. apply app_nil_r.
Qed.

Lemma control_if_closed_frame (s : State) :
  control_flag (control_if_closed s) = control_flag s
  /\ measurements (io (control_if_closed s)) = measurements (io s)
  /\ temperature (control_if_closed s) = temperature s
  /\ setpoint (control_if_closed s) = setpoint s
  /\ error (control_if_closed s) = error s
  /\ dt (control_if_closed s) = dt s
  /\ time_control (control_if_closed s) = time_control s
  /\ time_recent (control_if_closed s) = time_recent s
  /\ mode (control_if_closed s) = mode s.
Proof.
  unfold control_if_closed. destruct (MODES_eqb (mode s) CLOSED_LOOP).
  - apply control_frame.
  - repeat split.
Qed.

Lemma control_service_pending (w : Env) (s : State) :
  control_flag s = true ->
  control_service w s
  = upd_control_flag false
      (control_if_closed
         (advance_time_control (update_dt (read_temperature w s)))).
Proof. intros H. unfold control_service. rewrite H. reflexivity. Qed.

Lemma control_service_idle (w : Env) (s : State) :
  control_flag s = false -> control_service w s = s.
Proof. intros H. unfold control_service. rewrite H. reflexivity. Qed.

(** What a control service with a pending tick does. *)
Lemma control_service_effect (w : Env) (s : State) :
  control_flag s = true ->
  let s' := control_service w s in
  measurements (io s') = S (measurements (io s))
  /\ temperature s' = rtd_temperature w
  /\ error s' = fsub (rtd_temperature w) (setpoint s)
  /\ time_recent s' = of_int (millis w mod 2 ^ 32)
  /\ dt s' = fsub (time_recent s') (time_control s)
  /\ time_control s' = time_recent s'
  /\ dac_commands (io s')
     = dac_commands (io s)
       ++ (if MODES_eqb (mode s) CLOSED_LOOP
           then branch_codes
                  (control_branch (fsub (rtd_temperature w) (setpoint s))
                     (band s))
           else [])
  /\ control_flag s' = false.
Proof.
  intros H s'. subst s'. rewrite (control_service_pending w s H).
  set (s3 := advance_time_control (update_dt (read_temperature w s))).
  destruct (control_if_closed_frame s3)
    as (_ & Hm & Ht & _ & He & Hd & Htc & Htr & _).
  pose proof (control_if_closed_commands s3) as Hc.
  simpl. rewrite Hm, Ht, He, Hd, Htc, Htr, Hc.
  subst s3. simpl. rewrite measurements_app, dac_commands_app. simpl.
  rewrite app_nil_r, Nat.add_1_r. repeat split.
Qed.


Lemma isr_idempotent (n : nat) (s : State) :
  Nat.iter (S n) ISR_TIMER1_COMPA s = ISR_TIMER1_COMPA s.
Proof.
  induction n as [ | n IH]; [reflexivity | ].
  change (Nat.iter (S (S n)) ISR_TIMER1_COMPA s)
    with (ISR_TIMER1_COMPA (Nat.iter (S n) ISR_TIMER1_COMPA s)).
  rewrite IH. reflexivity.
Qed.

Lemma isr_on_pending (s : State) :
  control_flag s = true -> ISR_TIMER1_COMPA s = s.
Proof. destruct s; simpl; intros ->; reflexivity. Qed.

Ltac statement :=
  repeat first
    [ progress cbn [run main_step fst snd]
    | match goal with
      | H : ?c = _ |- context [if ?c then _ else _] => rewrite H
      end ].

(** Run without interrupt, the statements of one pass compute [loop]. *)
Lemma loop_by_statements (w : Env) (s : State) :
  exists n : nat,
    (3 <= n <= 14)%nat
    /\ run decode n w (P_receive, s) = (P_receive, loop decode w s).
Proof.
  unfold loop, command_dispatch, control_service, control_if_closed,
    read_temperature.
  destruct (newData (receive_data w s)) eqn:En.
  - set (s1 := upd_newData false _).
    destruct (control_flag s1) eqn:Ef.
    + destruct (MODES_eqb _ _) eqn:Em.
      * exists 14%nat. split; [lia | ].
        statement. fold s1. statement. reflexivity.
      * exists 13%nat. split; [lia | ].
        statement. fold s1. statement. reflexivity.
    + exists 6%nat. split; [lia | ].
      statement. fold s1. statement. reflexivity.
  - destruct (control_flag (receive_data w s)) eqn:Ef.
    + destruct (MODES_eqb _ _) eqn:Em.
      * exists 11%nat. split; [lia | ]. statement. reflexivity.
      * exists 10%nat. split; [lia | ]. statement. reflexivity.
    + exists 3%nat. split; [lia | ]. statement. reflexivity.
Qed.

(** Within a pass the program points only move forward through the three
    phases; the pass ends by returning to the serial intake. *)
Lemma phases_in_order (w : Env) (pc : PC) (s : State) :
  (phase pc <= phase (fst (main_step decode w (pc, s))))%nat
  \/ fst (main_step decode w (pc, s)) = P_receive.
Proof.
  destruct pc; cbn [main_step fst snd phase];
    try (left; simpl; lia); try (right; reflexivity).
  - destruct (newData s); left; simpl; lia.
  - destruct (control_flag s); [left; simpl; lia | right; reflexivity].
  - destruct (MODES_eqb (mode s) CLOSED_LOOP); left; simpl; lia.
Qed.

(** C4: on a pass of the main loop entered with [control_flag] set, one
    measurement is taken, [error], [dt] and [time_control] are updated, the
    control law decides once if and only if the mode is CLOSED_LOOP (at
    most one actuator command, none in OPEN_LOOP), and the flag is cleared
    at the end, so the following pass services nothing unless a new tick
    arrives; ticks arriving on a flag that is already set change nothing:
    the flag does not count them. *)
Theorem control_service_once (w : Env) (s : State) :
  control_flag s = true ->
  let s1 := command_dispatch decode (receive_data w s) in
  let s3 := advance_time_control (update_dt (read_temperature w s1)) in
  let s' := loop decode w s in
  s' = upd_control_flag false
         (if MODES_eqb (mode s1) CLOSED_LOOP then control s3 else s3)
  /\ measurements (io s') = S (measurements (io s))
  /\ temperature s' = rtd_temperature w
  /\ error s' = fsub (rtd_temperature w) (setpoint s1)
  /\ time_recent s' = of_int (millis w mod 2 ^ 32)
  /\ dt s' = fsub (time_recent s') (time_control s)
  /\ time_control s' = time_recent s'
  /\ dac_commands (io s')
     = dac_commands (io s1)
       ++ (if MODES_eqb (mode s1) CLOSED_LOOP
           then branch_codes (control_branch (error s') (band s1))
           else [])
  /\ control_flag s' = false
  /\ (forall w' : Env,
        loop decode w' s' = command_dispatch decode (receive_data w' s')
        /\ measurements (io (loop decode w' s')) = measurements (io s'))
  /\ (forall n : nat, Nat.iter n ISR_TIMER1_COMPA s = s)
  /\ (forall (n : nat) (s0 : State),
        Nat.iter (S n) ISR_TIMER1_COMPA s0 = ISR_TIMER1_COMPA s0).
Proof.
  intros H s1 s3 s'.
  destruct (receive_data_frame w s) as (Hr1 & Hr2 & Hr3).
  destruct (command_dispatch_frame (receive_data w s)) as (Hd1 & Hd2 & Hd3 & _).
  fold s1 in Hd1, Hd2, Hd3.
  assert (H1 : control_flag s1 = true) by congruence.
  destruct (control_service_effect w s1 H1)
    as (E1 & E2 & E3 & E4 & E5 & E6 & E7 & E8).
  change (control_service w s1) with s' in *.
  assert (Hidle : forall w' : Env,
            loop decode w' s' = command_dispatch decode (receive_data w' s')).
  { intros w'. unfold loop. apply control_service_idle.
    destruct (command_dispatch_frame (receive_data w' s')) as (-> & _).
    destruct (receive_data_frame w' s') as (-> & _). exact E8. }
  split.
  { subst s' s3. unfold loop. fold s1.
    rewrite (control_service_pending w s1 H1). reflexivity. }
  repeat split; try assumption; try congruence.
  - rewrite E3. exact E7.
  - rewrite Hidle.
    destruct (command_dispatch_frame (receive_data w' s')) as (_ & -> & _).
    destruct (receive_data_frame w' s') as (_ & -> & _). reflexivity.
  - intros n. induction n as [ | n IH]; [reflexivity | ].
    simpl. rewrite IH. apply isr_on_pending, H.
  - intros n s0. apply isr_idempotent.
Qed.


Lemma main_step_control_flag (w : Env) (pc : PC) (s : State) :
  control_flag (snd (main_step decode w (pc, s)))
  = match pc with P_flag_reset => false | _ => control_flag s end.
Proof.
  destruct pc; cbn [main_step fst snd]; try reflexivity.
  - apply receive_data_frame.
  - destruct (newData s); reflexivity.
  - apply dispatch_frame.
  - destruct (control_flag s) eqn:E; simpl; rewrite E; reflexivity.
  - destruct (MODES_eqb (mode s) CLOSED_LOOP); reflexivity.
  - apply control_frame.
Qed.

Lemma main_step_enters_flag_reset (w : Env) (pc : PC) (s : State) :
  fst (main_step decode w (pc, s)) = P_flag_reset ->
  pc = P_mode_check \/ pc = P_control.
Proof.
  destruct pc; cbn [main_step fst snd]; try discriminate; auto.
  - destruct (newData s); discriminate.
  - destruct (control_flag s); discriminate.
Qed.

(** C6: the timer interrupt handler sets [control_flag] and does nothing
    else: every other variable and the history of measurements, actuator
    commands and responses are as before.  No statement of the main context
    sets the flag, [setup()] leaves it false, and the only statement that
    clears it is the last one of the control service, entered from the
    mode test or from the control law; so a step that raises the flag is an
    interrupt. *)
Theorem isr_only_sets_flag (s : State) :
  control_flag (ISR_TIMER1_COMPA s) = true
  /\ (temperature (ISR_TIMER1_COMPA s) = temperature s
      /\ setpoint (ISR_TIMER1_COMPA s) = setpoint s
      /\ error (ISR_TIMER1_COMPA s) = error s
      /\ band (ISR_TIMER1_COMPA s) = band s
      /\ t_integral (ISR_TIMER1_COMPA s) = t_integral s
      /\ t_derivative (ISR_TIMER1_COMPA s) = t_derivative s
      /\ u1 (ISR_TIMER1_COMPA s) = u1 s
      /\ u2 (ISR_TIMER1_COMPA s) = u2 s
      /\ u3 (ISR_TIMER1_COMPA s) = u3 s
      /\ period (ISR_TIMER1_COMPA s) = period s
      /\ dt (ISR_TIMER1_COMPA s) = dt s
      /\ time_control (ISR_TIMER1_COMPA s) = time_control s
      /\ time_recent (ISR_TIMER1_COMPA s) = time_recent s
      /\ dac_output (ISR_TIMER1_COMPA s) = dac_output s
      /\ received_data (ISR_TIMER1_COMPA s) = received_data s
      /\ temp_data (ISR_TIMER1_COMPA s) = temp_data s
      /\ newData (ISR_TIMER1_COMPA s) = newData s
      /\ mode (ISR_TIMER1_COMPA s) = mode s
      /\ io (ISR_TIMER1_COMPA s) = io s)
  /\ (forall (w : Env) (pc : PC) (s0 : State),
        control_flag s0 = false ->
        control_flag (snd (main_step decode w (pc, s0))) = false)
  /\ (forall (w : Env) (pc : PC) (s0 : State),
        control_flag s0 = true ->
        control_flag (snd (main_step decode w (pc, s0))) = false ->
        pc = P_flag_reset)
  /\ (forall (w : Env) (pc : PC) (s0 : State),
        fst (main_step decode w (pc, s0)) = P_flag_reset ->
        pc = P_mode_check \/ pc = P_control)
  /\ (forall m m' : Machine,
        step decode m m' ->
        control_flag (snd m) = false -> control_flag (snd m') = true ->
        m' = (fst m, ISR_TIMER1_COMPA (snd m)))
  /\ (forall (r : float) (t1 t2 : Z), control_flag (setup r t1 t2) = false).
Proof.
  split; [reflexivity | ].
  split; [repeat split | ].
  split.
  { intros w pc s0 H. rewrite main_step_control_flag.
    destruct pc; try exact H; reflexivity. }
  split.
  { intros w pc s0 H H'. rewrite main_step_control_flag in H'.
    destruct pc; try reflexivity; congruence. }
  split; [apply main_step_enters_flag_reset | ].
  split; [ | reflexivity].
  intros m m' Hs Hf Hf'. destruct Hs as [w [pc s0] | pc s0].
  - simpl in Hf. rewrite main_step_control_flag in Hf'.
    destruct pc; congruence.
  - reflexivity.
Qed.

(** The interrupt commutes with every statement of the main context that
    neither tests nor clears the flag: taking it inside such a statement is
    the same as taking it just before or just after. *)
Lemma isr_commutes_with_statement (w : Env) (pc : PC) (s : State) :
  pc <> P_flag_check -> pc <> P_flag_reset ->
  main_step decode w (pc, ISR_TIMER1_COMPA s)
  = (fst (main_step decode w (pc, s)),
     ISR_TIMER1_COMPA (snd (main_step decode w (pc, s)))).
Proof.
  intros H1 H2.
  destruct pc; cbn [main_step fst snd]; try congruence; try reflexivity.
  - unfold receive_data. destruct (serial w); reflexivity.
  - simpl. destruct (newData s); reflexivity.
  - unfold parseData. simpl. destruct (decode (temp_data s)); reflexivity.
  - simpl. destruct (MODES_eqb (mode s) CLOSED_LOOP); reflexivity.
  - unfold control. simpl.
    destruct (fge _ _); [reflexivity | ].
    destruct (flt _ _); reflexivity.
Qed.

(** At the program points between the recomputation of [error] and the
    call of the control law, [error] is [temperature - setpoint], whatever
    interrupts and commands came before. *)
Lemma error_paired_invariant (m : Machine) :
  reachable decode m ->
  after_error_update (fst m) = true ->
  error (snd m) = fsub (temperature (snd m)) (setpoint (snd m)).
Proof.
  induction 1 as [r t1 t2 | m m' Hr IH Hs].
  - discriminate.
  - destruct Hs as [w [pc s] | pc s].
    + destruct pc; cbn [main_step fst snd] in *; try discriminate;
        try (intros _; apply IH; reflexivity).
      * destruct (newData s); discriminate.
      * destruct (control_flag s); discriminate.
      * reflexivity.
      * destruct (MODES_eqb (mode s) CLOSED_LOOP); [ | discriminate].
        intros _. apply IH. reflexivity.
    + exact IH.
Qed.

(** Whenever the main loop is about to call the control law, the error it
    reads is the one of the current temperature and setpoint, and the two
    variants of the law coincide. *)
Lemma control_law_reads_paired_error (s : State) :
  reachable decode (P_control, s) ->
  error s = fsub (temperature s) (setpoint s)
  /\ control_local s = control s.
Proof.
  intros H.
  pose proof (error_paired_invariant (P_control, s) H eq_refl) as E.
  simpl in E.
  split; [exact E | ]. unfold control_local, control. rewrite <- E.
  reflexivity.
Qed.

(** C7: a pass of the main loop runs serial intake, then command dispatch,
    then control service, statement after statement in that order.  So
    when a line is completed during a pass that has a tick pending, the
    operation it names is applied before the control service of that same
    pass: the error is computed against the setpoint just set, the law
    compares it with the band just set, and is run or not according to the
    mode just set. *)
Theorem dispatch_before_control_service
    (w : Env) (s : State) (line : list ascii) :
  serial w = Some line -> control_flag s = true ->
  let l := firstn (data_size - 1) line in
  let c := decode l in
  let s1 := command_dispatch decode (receive_data w s) in
  (exists n : nat,
     (3 <= n <= 14)%nat
     /\ run decode n w (P_receive, s) = (P_receive, loop decode w s))
  /\ (forall (pc : PC) (s0 : State),
        (phase pc <= phase (fst (main_step decode w (pc, s0))))%nat
        \/ fst (main_step decode w (pc, s0)) = P_receive)
  /\ loop decode w s = control_service w s1
  /\ s1 = upd_newData false
            (dispatch c
               (upd_temp_data l (upd_newData true (upd_received_data l s))))
  /\ error (loop decode w s) = fsub (rtd_temperature w) (setpoint s1)
  /\ dac_commands (io (loop decode w s))
     = dac_commands (io s1)
       ++ (if MODES_eqb (mode s1) CLOSED_LOOP
           then branch_codes
                  (control_branch (fsub (rtd_temperature w) (setpoint s1))
                     (band s1))
           else [])
  /\ (forall x : float,
        c = CmdSetSetpoint x ->
        setpoint s1 = x /\ band s1 = band s /\ mode s1 = mode s)
  /\ (forall b ti td : float,
        c = CmdSetParameters b ti td ->
        setpoint s1 = setpoint s /\ band s1 = b /\ mode s1 = mode s)
  /\ (forall m : MODES,
        c = CmdSetMode m ->
        setpoint s1 = setpoint s /\ band s1 = band s /\ mode s1 = m).
Proof.
  intros Hline Hflag l c s1.
  assert (Es1 : s1 = upd_newData false
            (dispatch c
               (upd_temp_data l (upd_newData true (upd_received_data l s))))).
  { subst s1 c l. unfold command_dispatch, receive_data, parseData.
    rewrite Hline. reflexivity. }
  assert (Hf1 : control_flag s1 = true).
  { destruct (command_dispatch_frame (receive_data w s)) as (Hd & _).
    destruct (receive_data_frame w s) as (Hr & _).
    subst s1. congruence. }
  destruct (control_service_effect w s1 Hf1)
    as (_ & _ & E3 & _ & _ & _ & E7 & _).
  split; [apply loop_by_statements | ].
  split; [intros pc s0; apply phases_in_order | ].
  split; [reflexivity | ].
  split; [exact Es1 | ].
  split; [exact E3 | ].
  split; [exact E7 | ].
  repeat split; rewrite Es1, H; reflexivity.
Qed.

End DriverFacts.

(** ** The theorems at sample states *)

Lemma control_service_once_witness :
  measurements (io (loop sample_decode w_hot s_pending))
  = S (measurements (io s_pending))
  /\ control_flag (loop sample_decode w_hot s_pending) = false.
Proof.
  destruct (control_service_once sample_decode w_hot s_pending eq_refl)
    as (_ & H1 & _ & _ & _ & _ & _ & _ & H8 & _).
  split; [exact H1 | exact H8].
Defined.

Lemma isr_only_sets_flag_witness :
  control_flag
    (snd (main_step sample_decode w_hot (P_parse, s_ready))) = false.
Proof.
  destruct (isr_only_sets_flag sample_decode s_ready)
    as (_ & _ & H & _).
  apply H. reflexivity.
Defined.

Lemma dispatch_before_control_service_witness :
  error (loop sample_decode w_line s_pending)
  = fsub (of_int 30) (of_int 30)
  /\ dac_commands (io (loop sample_decode w_line s_pending)) = [0].
Proof.
  destruct (dispatch_before_control_service sample_decode w_line s_pending
              ["s"%char] eq_refl eq_refl)
    as (_ & _ & _ & _ & He & _ & Hs & _).
  destruct (Hs (of_int 30) eq_refl) as (Hsp & _).
  split.
  - rewrite He. rewrite Hsp. reflexivity.
  - vm_compute. reflexivity.
Defined.

(** ** Further properties of the control law *)

Section ControlLawMore.

Lemma control_keeps_inputs (s : State) :
  error (control s) = error s /\ band (control s) = band s.
Proof.
  rewrite control_as_branch.
  destruct (control_branch (error s) (band s)); split; reflexivity.
Qed.

Lemma iter_control_keeps_inputs (n : nat) (s : State) :
  error (Nat.iter n control s) = error s
  /\ band (Nat.iter n control s) = band s.
Proof.
  induction n as [ | n [IHe IHb]]; [split; reflexivity | ].
  simpl. destruct (control_keeps_inputs (Nat.iter n control s)) as [He Hb].
  split; congruence.
Qed.



(** Calling [control()] [n] times on unchanged inputs sends the same
    command [n] times (nothing in the dead zone): the law does not remember
    that it already commanded the actuator, while the commanded value is
    the one of the first call. *)
Theorem control_repeated (s : State) (n : nat) :
  dac_commands (io (Nat.iter n control s))
  = dac_commands (io s)
    ++ concat (repeat (branch_codes (control_branch (error s) (band s))) n)
  /\ dac_output (Nat.iter (S n) control s) = dac_output (control s).
Proof.
  split.
  - induction n as [ | n IH]; simpl; [symmetry; apply app_nil_r | ].
    rewrite control_as_branch, run_branch_commands, IH.
    destruct (iter_control_keeps_inputs n s) as [-> ->].
    rewrite <- app_assoc. f_equal.
    set (b := branch_codes _). clear.
    induction n as [ | n IH]; simpl; [rewrite app_nil_r; reflexivity | ].
    rewrite <- app_assoc, IH. reflexivity.
  - induction n as [ | n IH]; [reflexivity | ].
    change (Nat.iter (S (S n)) control s)
      with (control (Nat.iter (S n) control s)).
    rewrite control_as_branch.
    destruct (iter_control_keeps_inputs (S n) s) as [-> ->].
    rewrite <- IH.
    change (Nat.iter (S n) control s) with (control (Nat.iter n control s)).
    rewrite (control_as_branch (Nat.iter n control s)).
    destruct (iter_control_keeps_inputs n s) as [-> ->].
    destruct (control_branch (error s) (band s)); reflexivity.
Qed.


Lemma not_nan_has_sign (x : float) :
  is_nan x = false -> exists sx : bool, sign_is sx x.
Proof.
  destruct x as [s | s | | s m e]; try discriminate; intros _.
  - exists false. exact I.
  - exists s. reflexivity.
  - exists s. reflexivity.
Qed.

Lemma sign_is_not_nan (sx : bool) (x : float) :
  sign_is sx x -> is_nan x = false.
Proof. destruct x; simpl; tauto. Qed.

Lemma thresholds_not_nan (b : float) :
  is_nan b = false ->
  is_nan (upper_threshold b) = false /\ is_nan (lower_threshold b) = false.
Proof.
  intros H. destruct (not_nan_has_sign b H) as [sb Hs]. split.
  - apply (sign_is_not_nan sb), upper_threshold_sign, Hs.
  - apply (sign_is_not_nan (negb sb)), lower_threshold_sign, Hs.
Qed.

Lemma SFcompare_some (x y : float) :
  is_nan x = false -> is_nan y = false ->
  exists c : comparison, SFcompare x y = Some c.
Proof.
  destruct x, y; simpl; try discriminate; intros _ _; eexists; reflexivity.
Qed.

Lemma SFcompare_refl (x : float) :
  is_nan x = false -> SFcompare x x = Some Eq.
Proof.
  destruct x as [s | s | | s m e]; simpl; try discriminate; intros _.
  - reflexivity.
  - destruct s; reflexivity.
  - rewrite Z.compare_refl.
    change (Pos.compare_cont Eq m m) with (Pos.compare m m).
    rewrite Pos.compare_refl. destruct s; reflexivity.
Qed.

(** When error and band are numbers, [control()] leaves the state alone
    exactly when [-band/2 <= error < band/2]: the dead zone contains its
    lower end and nothing outside of it is ignored. *)
Theorem control_dead_zone_exact (s : State) :
  is_nan (error s) = false -> is_nan (band s) = false ->
  (control s = s
   <-> fle (lower_threshold (band s)) (error s) = true
       /\ flt (error s) (upper_threshold (band s)) = true).
Proof.
  intros He Hb.
  destruct (thresholds_not_nan (band s) Hb) as [Hu Hl].
  destruct (SFcompare_some _ _ He Hu) as [cu Ecu].
  destruct (SFcompare_some _ _ He Hl) as [cl Ecl].
  pose proof (SFcompare_antisym (error s) (lower_threshold (band s))) as Ea.
  rewrite Ecl in Ea. simpl in Ea.
  rewrite control_as_branch. unfold control_branch.
  fold (upper_threshold (band s)). fold (lower_threshold (band s)).
  unfold fge, flt, fle. rewrite Ecu, Ecl, Ea.
  split.
  - intros H.
    destruct cu; simpl in H;
      try (exfalso; exact (set_dac_changes_state _ _ H)).
    destruct cl; simpl in H;
      try (exfalso; exact (set_dac_changes_state _ _ H));
      split; reflexivity.
  - intros [H1 H2].
    destruct cu; try discriminate.
    destruct cl; try discriminate; reflexivity.
Qed.

Lemma control_dead_zone_exact_witness :
  control s_inside = s_inside
  <-> fle (lower_threshold (band s_inside)) (error s_inside) = true
      /\ flt (error s_inside) (upper_threshold (band s_inside)) = true.
Proof.
  apply (control_dead_zone_exact s_inside); vm_compute; reflexivity.
Defined.

(** The two thresholds mirror each other, [-1*band/2] being exactly
    [-(band/2)] for every binary32 band, and for [band >= 0] the lower one
    is not above the upper one. *)
Theorem thresholds_symmetric_ordered (b : float) :
  valid_binary prec emax b = true ->
  lower_threshold b = SFopp (upper_threshold b)
  /\ (fge b zero = true ->
      fle (lower_threshold b) (upper_threshold b) = true).
Proof.
  intros H. split; [apply lower_threshold_negates_upper, H | ].
  intros Hb. apply fge_zero_sign in Hb.
  pose proof (upper_threshold_sign false b Hb) as Hu.
  pose proof (lower_threshold_sign false b Hb) as Hl.
  unfold fle.
  destruct (lower_threshold b) as [s1 | s1 | | s1 m1 e1],
    (upper_threshold b) as [s2 | s2 | | s2 m2 e2];
    simpl in *; subst; try tauto; try reflexivity.
Qed.

Lemma thresholds_symmetric_ordered_witness :
  lower_threshold (decimal 48 1) = SFopp (upper_threshold (decimal 48 1))
  /\ fle (lower_threshold (decimal 48 1)) (upper_threshold (decimal 48 1))
     = true.
Proof.
  destruct (thresholds_symmetric_ordered (decimal 48 1) eq_refl) as [H1 H2].
  split; [exact H1 | apply H2; reflexivity].
Defined.

(** The ends of the dead zone, for a band whose half is above zero: an
    error equal to [band/2] gets the full-scale command, an error equal to
    [-band/2] gets none. *)
Theorem control_boundaries (b : float) :
  valid_binary prec emax b = true ->
  flt zero (upper_threshold b) = true ->
  control_branch (upper_threshold b) b = FullNegative
  /\ control_branch (lower_threshold b) b = NoCommand.
Proof.
  intros Hv Hpos.
  pose proof (lower_threshold_negates_upper b Hv) as El.
  unfold control_branch.
  fold (upper_threshold b). fold (lower_threshold b).
  rewrite El.
  assert (Hn : is_nan (upper_threshold b) = false).
  { destruct (upper_threshold b); try reflexivity.
    unfold flt in Hpos. simpl in Hpos. discriminate. }
  split.
  - unfold fge. rewrite (SFcompare_refl _ Hn). reflexivity.
  - unfold flt, zero in Hpos. unfold fge, flt.
    destruct (upper_threshold b) as [s | s | | s m e]; try discriminate.
    + destruct s; try discriminate. reflexivity.
    + destruct s; try discriminate. simpl.
      rewrite Z.compare_refl.
      change (Pos.compare_cont Eq m m) with (Pos.compare m m).
      rewrite Pos.compare_refl. reflexivity.
Qed.

Lemma control_boundaries_witness :
  control_branch (upper_threshold (decimal 48 1)) (decimal 48 1)
  = FullNegative
  /\ control_branch (lower_threshold (decimal 48 1)) (decimal 48 1)
     = NoCommand.
Proof.
  apply (control_boundaries (decimal 48 1)); vm_compute; reflexivity.
Defined.

(** Right after the measurement step, and at the point where [loop()]
    calls the law, the [control()] of [control.ino] and the one of
    [PID.ino] do the same, whatever the state before the measurement. *)
Theorem control_local_after_measurement (w : Env) (s : State) :
  control_local (read_temperature w s) = control (read_temperature w s)
  /\ control_local (advance_time_control (update_dt (read_temperature w s)))
     = control (advance_time_control (update_dt (read_temperature w s))).
Proof.
  assert (H : forall s0 : State,
            error s0 = fsub (temperature s0) (setpoint s0) ->
            control_local s0 = control s0).
  { intros s0 E. unfold control_local, control. rewrite <- E. reflexivity. }
  split; apply H.
  - apply read_temperature_pairs_error.
  - cbn [advance_time_control update_dt upd_time_control upd_dt
         error temperature setpoint].
    apply read_temperature_pairs_error.
Qed.

End ControlLawMore.

(** ** Further properties of the main loop *)

Section DriverMore.

Variable decode : list ascii -> Command.

Lemma control_service_frame (w : Env) (s : State) :
  newData (control_service w s) = newData s
  /\ setpoint (control_service w s) = setpoint s
  /\ band (control_service w s) = band s
  /\ mode (control_service w s) = mode s.
Proof.
  unfold control_service. destruct (control_flag s); [ | repeat split].
  unfold control_if_closed.
  destruct (MODES_eqb _ _); [ | repeat split].
  rewrite control_as_branch.
  destruct (control_branch _ _); repeat split.
Qed.

(** Whatever arrives and whatever is pending, a pass of [loop()] ends with
    [newData] false: a completed line is dispatched in the pass that
    received it and never a second time. *)
Theorem loop_clears_newData (w : Env) (s : State) :
  newData (loop decode w s) = false
  /\ newData (command_dispatch decode (receive_data w s)) = false.
Proof.
  assert (H : newData (command_dispatch decode (receive_data w s)) = false)
    by apply command_dispatch_frame.
  split; [ | exact H]. unfold loop.
  destruct (control_service_frame w
              (command_dispatch decode (receive_data w s))) as (-> & _).
  exact H.
Qed.


(** When the sensor delivers NaN, the control service stores it, the error
    becomes NaN, and in either mode the actuator is left with its last
    command; the tick is consumed all the same. *)
Theorem control_service_nan_reading (w : Env) (s : State) :
  control_flag s = true -> is_nan (rtd_temperature w) = true ->
  let s' := control_service w s in
  temperature s' = S754_nan
  /\ error s' = S754_nan
  /\ dac_commands (io s') = dac_commands (io s)
  /\ dac_output s' = dac_output s
  /\ control_flag s' = false.
Proof.
  intros Hf Hn s'. subst s'.
  rewrite (control_service_pending w s Hf).
  set (s3 := advance_time_control (update_dt (read_temperature w s))).
  assert (He : error s3 = S754_nan).
  { subst s3. simpl. destruct (rtd_temperature w); try discriminate.
    reflexivity. }
  assert (Hc : control_if_closed s3 = s3).
  { unfold control_if_closed. destruct (MODES_eqb _ _); [ | reflexivity].
    apply control_nan_no_command. left. rewrite He. reflexivity. }
  rewrite Hc. subst s3. simpl.
  destruct (rtd_temperature w); try discriminate.
  rewrite dac_commands_app. simpl. rewrite app_nil_r. repeat split.
Qed.

(** [dt] is the time between the stamps of two consecutive serviced
    measurements: after a service at clock [t1] and the next one at clock
    [t2], [dt] is [t2 - t1], both clocks converted to binary32. *)
Theorem dt_between_services (w1 w2 : Env) (s : State) :
  control_flag s = true ->
  let s1 := control_service w1 s in
  let s2 := control_service w2 (ISR_TIMER1_COMPA s1) in
  dt s1 = fsub (of_int (millis w1 mod 2 ^ 32)) (time_control s)
  /\ dt s2 = fsub (of_int (millis w2 mod 2 ^ 32))
                  (of_int (millis w1 mod 2 ^ 32))
  /\ time_control s2 = of_int (millis w2 mod 2 ^ 32)
  /\ time_recent s2 = time_control s2.
Proof.
  intros Hf s1 s2.
  destruct (control_service_effect w1 s Hf)
    as (_ & _ & _ & A4 & A5 & A6 & _).
  fold s1 in A4, A5, A6.
  destruct (control_service_effect w2 (ISR_TIMER1_COMPA s1) eq_refl)
    as (_ & _ & _ & B4 & B5 & B6 & _).
  fold s2 in B4, B5, B6.
  change (time_control (ISR_TIMER1_COMPA s1)) with (time_control s1) in B5.
  repeat split; congruence.
Qed.

(** From the test of the flag to its reset, the flag stays set: a tick
    taken while a service is in progress meets a flag that is already
    true and changes nothing, so it does not start a service of its own. *)
Theorem tick_during_service_absorbed (m : Machine) :
  reachable decode m ->
  in_service (fst m) = true ->
  control_flag (snd m) = true /\ ISR_TIMER1_COMPA (snd m) = snd m.
Proof.
  intros Hr Hs.
  assert (H : control_flag (snd m) = true).
  { revert Hs. induction Hr as [r t1 t2 | m m' Hr IH Hstep].
    - discriminate.
    - destruct Hstep as [w [pc s] | pc s].
      + destruct pc; cbn [main_step fst snd] in *; try discriminate;
          try (intros _; apply IH; reflexivity).
        * destruct (newData s); discriminate.
        * destruct (control_flag s) eqn:E; [ | discriminate].
          intros _. exact E.
        * destruct (MODES_eqb (mode s) CLOSED_LOOP);
            intros _; apply IH; reflexivity.
        * intros _. destruct (control_frame s) as (-> & _).
          apply IH. reflexivity.
      + intros _. reflexivity. }
  split; [exact H | apply isr_on_pending, H].
Qed.

(** The sensor is never read more often than the timer has ticked, the
    preliminary reading of [initialize()] apart: after [k] ticks at most
    [k + 1] measurements have been taken, counting the one a pending flag
    still owes. *)
Theorem measurements_bounded_by_ticks (k : nat) (m : Machine) :
  reachable_ticks decode k m ->
  (measurements (io (snd m)) + pending (fst m) (snd m) <= S k)%nat
  /\ (measurements (io (snd m)) <= S k)%nat.
Proof.
  intros Hr.
  assert (H : (measurements (io (snd m)) + pending (fst m) (snd m)
               <= S k)%nat).
  { induction Hr as [r t1 t2 | k w [pc s] Hr IH | k pc s Hr IH].
    - simpl. lia.
    - cbn [fst snd] in IH.
      destruct pc; cbn [main_step fst snd pending] in *.
      + destruct (receive_data_frame w s) as (-> & -> & _). exact IH.
      + destruct (newData s); cbn [fst snd pending]; exact IH.
      + exact IH.
      + unfold parseData.
        destruct (dispatch_frame (decode (temp_data s)) s)
          as (-> & -> & _). exact IH.
      + exact IH.
      + destruct (control_flag s) eqn:E; cbn [fst snd pending];
          rewrite ?E; exact IH.
      + simpl. rewrite measurements_app. simpl. lia.
      + exact IH.
      + exact IH.
      + exact IH.
      + exact IH.
      + destruct (MODES_eqb (mode s) CLOSED_LOOP);
          cbn [fst snd pending]; exact IH.
      + destruct (control_frame s) as (_ & -> & _). exact IH.
      + simpl. lia.
    - cbn [fst snd] in *.
      assert (Hp : (pending pc (ISR_TIMER1_COMPA s) <= S (pending pc s))%nat).
      { destruct pc; simpl; try lia; destruct (control_flag s); lia. }
      change (io (ISR_TIMER1_COMPA s)) with (io s). lia. }
  split; [exact H | lia].
Qed.

Lemma ticks_run (k n : nat) (w : Env) :
  forall m : Machine,
    reachable_ticks decode k m -> reachable_ticks decode k (run decode n w m).
Proof.
  induction n as [ | n IH]; intros m H; [exact H | ].
  simpl. apply IH, ticks_main, H.
Qed.

Lemma reachable_of_ticks (k : nat) (m : Machine) :
  reachable_ticks decode k m -> reachable decode m.
Proof.
  induction 1 as [r t1 t2 | k w m Hr IH | k pc s Hr IH].
  - apply reach_setup.
  - apply (reach_step decode m); [exact IH | apply step_main].
  - apply (reach_step decode (pc, s)); [exact IH | apply step_irq].
Qed.

End DriverMore.

Lemma m_at_control_reached : reachable_ticks sample_decode 1 m_at_control.
Proof. apply ticks_run, ticks_irq, ticks_setup. Qed.

Lemma m_at_control_shape : m_at_control = (P_control, snd m_at_control).
Proof. vm_compute. reflexivity. Qed.


Lemma control_service_nan_reading_witness :
  dac_commands (io (control_service (mkEnv S754_nan 1350 None) s_pending))
  = dac_commands (io s_pending).
Proof.
  apply (control_service_nan_reading (mkEnv S754_nan 1350 None) s_pending);
    reflexivity.
Defined.

Lemma dt_between_services_witness :
  dt (control_service w_line (ISR_TIMER1_COMPA (control_service w_hot s_pending)))
  = fsub (of_int (1350 mod 2 ^ 32)) (of_int (1350 mod 2 ^ 32)).
Proof.
  apply (dt_between_services w_hot w_line s_pending). reflexivity.
Defined.

Lemma tick_during_service_absorbed_witness :
  ISR_TIMER1_COMPA (snd m_at_control) = snd m_at_control.
Proof.
  apply (tick_during_service_absorbed sample_decode m_at_control).
  - exact (reachable_of_ticks sample_decode 1 m_at_control
             m_at_control_reached).
  - vm_compute. reflexivity.
Defined.

Lemma measurements_bounded_by_ticks_witness :
  (measurements (io (snd m_at_control)) <= 2)%nat.
Proof.
  apply (measurements_bounded_by_ticks sample_decode 1 m_at_control).
  exact m_at_control_reached.
Defined.

Lemma control_law_reads_paired_error_witness :
  error (snd m_at_control)
  = fsub (temperature (snd m_at_control)) (setpoint (snd m_at_control)).
Proof.
  apply (control_law_reads_paired_error sample_decode (snd m_at_control)).
  rewrite <- m_at_control_shape.
  exact (reachable_of_ticks sample_decode 1 m_at_control
           m_at_control_reached).
Defined.

Lemma isr_commutes_with_statement_witness :
  main_step sample_decode w_hot (P_control, ISR_TIMER1_COMPA s_hot)
  = (fst (main_step sample_decode w_hot (P_control, s_hot)),
     ISR_TIMER1_COMPA (snd (main_step sample_decode w_hot (P_control, s_hot)))).
Proof.
  apply (isr_commutes_with_statement sample_decode w_hot P_control s_hot);
    discriminate.
Defined.

(** ** Clock stamps *)

Section ClockStamps.

Lemma digits2_pos_size (p : positive) : digits2_pos p = Pos.size p.
Proof. induction p as [p IH | p IH | ]; simpl; congruence. Qed.

Lemma digits2_pos_bound (p : positive) :
  Z.pos p < 2 ^ 24 -> Z.pos (digits2_pos p) <= 24.
Proof.
  intros H. rewrite digits2_pos_size.
  pose proof (Pos.size_le p) as Hs.
  assert (Hz : 2 ^ Z.pos (Pos.size p) <= 2 * Z.pos p).
  { rewrite <- Pos2Z.inj_pow. change (2 * Z.pos p) with (Z.pos p~0).
    apply Pos2Z.pos_le_pos, Hs. }
  assert (Hlt : 2 ^ Z.pos (Pos.size p) < 2 ^ 25).
  { change (2 ^ 25) with (2 * 2 ^ 24). lia. }
  apply Z.pow_lt_mono_r_iff in Hlt; lia.
Qed.

Lemma iter_xO_digits (k p : positive) :
  digits2_pos (Pos.iter xO p k) = (digits2_pos p + k)%positive.
Proof.
  induction k as [ | k IH] using Pos.peano_ind.
  - simpl. lia.
  - rewrite Pos.iter_succ. simpl. rewrite IH. lia.
Qed.

Lemma iter_xO_value (k p : positive) :
  Z.pos (Pos.iter xO p k) = Z.pos p * 2 ^ Z.pos k.
Proof.
  induction k as [ | k IH] using Pos.peano_ind.
  - simpl. lia.
  - rewrite Pos.iter_succ, Pos2Z.inj_succ, Z.pow_succ_r by lia.
    rewrite Pos2Z.inj_xO, IH. lia.
Qed.

(** A mantissa of full width at an exponent in range is kept as it is. *)
Lemma binary_round_aux_exact (sx : bool) (m : positive) (e : Z) :
  Z.pos (digits2_pos m) = 24 -> -149 <= e <= 104 ->
  binary_round_aux prec emax sx (Z.pos m) e loc_Exact = S754_finite sx m e.
Proof.
  intros Hd He.
  assert (Hf : fexp prec emax (Z.pos (digits2_pos m) + e) - e = 0).
  { unfold fexp, emin, prec, emax. rewrite Hd. lia. }
  unfold binary_round_aux, shr_fexp, Zdigits2.
  rewrite Hf.
  cbn [shr shr_record_of_loc shr_m loc_of_shr_record round_nearest_even].
  rewrite Hf. cbn [shr shr_m].
  replace (e <=? emax - prec) with true; [reflexivity | ].
  symmetry. apply Z.leb_le. unfold emax, prec. lia.
Qed.

(** The conversion of a positive integer below [2^24]: the mantissa is
    shifted to full width and nothing is rounded away. *)
Lemma of_int_small (p : positive) :
  Z.pos p < 2 ^ 24 ->
  exists (m : positive) (k : Z),
    of_int (Z.pos p) = S754_finite false m (- k)
    /\ 0 <= k <= 23 /\ Z.pos m = Z.pos p * 2 ^ k.
Proof.
  intros H. pose proof (digits2_pos_bound p H) as Hd.
  unfold of_int, binary_normalize, binary_round, shl_align.
  assert (Hf : fexp prec emax (Z.pos (digits2_pos p) + 0)
               = Z.pos (digits2_pos p) - 24).
  { unfold fexp, emin, prec, emax. lia. }
  rewrite Hf.
  destruct (Z.pos (digits2_pos p) - 24 - 0) as [ | q | q] eqn:E; try lia.
  - exists p, 0. rewrite binary_round_aux_exact by lia.
    repeat split; lia.
  - exists (Pos.iter xO p q), (Z.pos q).
    rewrite binary_round_aux_exact.
    + replace (Z.pos (digits2_pos p) - 24) with (- Z.pos q) by lia.
      repeat split; try lia. apply iter_xO_value.
    + rewrite iter_xO_digits, Pos2Z.inj_add. lia.
    + lia.
Qed.

(** The stamp [time_recent = millis()] keeps the clock value exactly as
    long as the clock is below [2^24] milliseconds; the bound is sharp,
    [2^24 + 1] being stored as [2^24]. *)
Theorem clock_stamp_exact (t : Z) (s : State) :
  0 <= t < 2 ^ 24 ->
  int_value (time_recent (stamp_recent t s)) = Some t
  /\ stamp_recent (2 ^ 24 + 1) s = stamp_recent (2 ^ 24) s.
Proof.
  intros H. split; [ | reflexivity].
  cbn [stamp_recent upd_time_recent time_recent].
  rewrite Z.mod_small by (change (2 ^ 32) with (256 * 2 ^ 24); lia).
  destruct t as [ | p | p]; try lia; [reflexivity | ].
  destruct (of_int_small p) as (m & k & -> & Hk & Hm); [lia | ].
  unfold int_value. rewrite Z.opp_involutive, Hm.
  destruct (0 <=? - k) eqn:E.
  - apply Z.leb_le in E. assert (k = 0) as -> by lia.
    simpl. f_equal. lia.
  - rewrite Z.mod_mul, Z.div_mul by (apply Z.pow_nonzero; lia).
    reflexivity.
Qed.

End ClockStamps.

Lemma clock_stamp_exact_witness :
  int_value (time_recent (stamp_recent 1350 s_ready)) = Some 1350.
Proof. apply (clock_stamp_exact 1350 s_ready). lia. Defined.

(** ** Order properties of the control law *)

Section ControlOrder.

Ltac lex_order :=
  repeat match goal with
         | H : context [Z.compare ?a ?b] |- _ =>
             destruct (Z.compare_spec a b); subst
         | |- context [Z.compare ?a ?b] =>
             destruct (Z.compare_spec a b); subst
         | H : context [Pos.compare_cont Eq ?a ?b] |- _ =>
             change (Pos.compare_cont Eq a b) with (Pos.compare a b) in H;
             destruct (Pos.compare_spec a b); subst
         | |- context [Pos.compare_cont Eq ?a ?b] =>
             change (Pos.compare_cont Eq a b) with (Pos.compare a b);
             destruct (Pos.compare_spec a b); subst
         end;
  simpl in *; try discriminate; try reflexivity; try lia.

Lemma fle_trans (x y z : float) :
  fle x y = true -> fle y z = true -> fle x z = true.
Proof.
  unfold fle.
  destruct x as [sx | sx | | sx mx ex], y as [sy | sy | | sy my ey],
    z as [sz | sz | | sz mz ez]; simpl; try discriminate; try reflexivity;
    try (destruct sx; simpl; try discriminate; try reflexivity);
    try (destruct sy; simpl; try discriminate; try reflexivity);
    try (destruct sz; simpl; try discriminate; try reflexivity);
    intros H1 H2; lex_order.
Qed.

Lemma fle_flt_trans (x y z : float) :
  fle x y = true -> flt y z = true -> flt x z = true.
Proof.
  unfold fle, flt.
  destruct x as [sx | sx | | sx mx ex], y as [sy | sy | | sy my ey],
    z as [sz | sz | | sz mz ez]; simpl; try discriminate; try reflexivity;
    try (destruct sx; simpl; try discriminate; try reflexivity);
    try (destruct sy; simpl; try discriminate; try reflexivity);
    try (destruct sz; simpl; try discriminate; try reflexivity);
    intros H1 H2; lex_order.
Qed.

(** The law is monotone in the error, for every band: if an error gets the
    full-scale command, so does every larger one, and if an error gets the
    zero code, so does every smaller one. *)
Theorem control_monotone (e1 e2 b : float) :
  fle e1 e2 = true ->
  (control_branch e1 b = FullNegative -> control_branch e2 b = FullNegative)
  /\ (control_branch e2 b = ZeroCode -> control_branch e1 b = ZeroCode).
Proof.
  intros Hle.
  assert (Hup : fge e1 (upper_threshold b) = true ->
                fge e2 (upper_threshold b) = true).
  { rewrite !fge_fle. intros H. apply (fle_trans _ e1); assumption. }
  unfold control_branch.
  fold (upper_threshold b). fold (lower_threshold b).
  split.
  - destruct (fge e1 (upper_threshold b)).
    + rewrite (Hup eq_refl). reflexivity.
    + destruct (flt e1 (lower_threshold b)); intros H; discriminate H.
  - destruct (fge e2 (upper_threshold b)) eqn:E2;
      [intros H; discriminate H | ].
    destruct (flt e2 (lower_threshold b)) eqn:L2;
      [ | intros H; discriminate H].
    intros _.
    destruct (fge e1 (upper_threshold b)).
    + discriminate (Hup eq_refl).
    + rewrite (fle_flt_trans e1 e2 _ Hle L2). reflexivity.
Qed.

Lemma control_monotone_witness :
  control_branch (error s_cold) (band s_cold) = ZeroCode.
Proof.
  destruct (control_monotone (error s_cold) (of_int (-3)) (band s_cold))
    as [_ H].
  - vm_compute. reflexivity.
  - apply H. vm_compute. reflexivity.
Defined.

(** For a band that is not negative the law acts in the direction of the
    error: the full-scale command is only sent for an error that is at
    least zero, the zero code only for one below zero. *)
Theorem control_direction (e b : float) :
  fge b zero = true ->
  (control_branch e b = FullNegative -> fge e zero = true)
  /\ (control_branch e b = ZeroCode -> flt e zero = true).
Proof.
  intros Hb. apply fge_zero_sign in Hb.
  pose proof (upper_threshold_sign false b Hb) as Hu.
  pose proof (lower_threshold_sign false b Hb) as Hl.
  unfold control_branch.
  fold (upper_threshold b). fold (lower_threshold b).
  split.
  - destruct (fge e (upper_threshold b)) eqn:E.
    + intros _. revert E Hu. unfold fge, zero.
      destruct e as [s | s | | s m x],
        (upper_threshold b) as [s2 | s2 | | s2 m2 x2];
        simpl; intros; subst; try tauto; try discriminate;
        try reflexivity; destruct s; simpl in *; try discriminate;
        reflexivity.
    + destruct (flt e (lower_threshold b)); intros H; discriminate H.
  - destruct (fge e (upper_threshold b)); [intros H; discriminate H | ].
    destruct (flt e (lower_threshold b)) eqn:E;
      [ | intros H; discriminate H].
    intros _. revert E Hl. unfold flt, zero.
    destruct e as [s | s | | s m x],
      (lower_threshold b) as [s1 | s1 | | s1 m1 x1];
      simpl; intros; subst; try tauto; try discriminate;
      try reflexivity; destruct s; simpl in *; try discriminate;
      reflexivity.
Qed.

Lemma control_direction_witness : fge (error s_hot) zero = true.
Proof.
  destruct (control_direction (error s_hot) (band s_hot)) as [H _].
  - vm_compute. reflexivity.
  - apply H. vm_compute. reflexivity.
Defined.

End ControlOrder.
